(** * DreamerV3 example (examples/dreamerv3): the agent's orchestration

    A shallow embedding of [examples/dreamerv3/dreamer.py]: the [Dreamer]
    agent (construction, the training call, the metric accumulators) and the
    start-up and checkpoint steps of [main].  The neural components live in
    [models.py], the logger in [utils.py] and the checkpoint functions in
    [tinygrad.nn.state]; none of them is among the sources at hand, so the
    agent is modelled over them as parameters, and the few statements that
    are about those components themselves are settled on definitions
    modelled from the specification (each marked as such).

    Python integers are [Z], Python floats are idealised as rationals [Q]
    (with a separate not-a-number value), exceptions are an error type, and
    the objects the agent mutates (itself, the logger, the dataset iterator,
    the models) are threaded through a small state-and-error monad together
    with a chronological trace of the calls that leave the agent. *)

From Stdlib Require Import ZArith QArith Qminmax Lia.
From stdpp Require Import base tactics option list strings gmap relations.

Local Open Scope Z_scope.

(** ** Python values *)

Inductive exn : Type :=
  | ValueError
  | ZeroDivisionError
  | AttributeError.

Inductive result (A : Type) : Type :=
  | Ok (a : A)
  | Raise (e : exn).
Arguments Ok {A} a.
Arguments Raise {A} e.

Definition is_ok {A} (r : result A) : bool :=
  match r with Ok _ => true | Raise _ => false end.

(** [a // b] on Python ints: floor division, [ZeroDivisionError] on [b = 0]. *)
Definition py_floordiv (a b : Z) : result Z :=
  if b =? 0 then Raise ZeroDivisionError else Ok (a / b).

(** [a % b] on Python ints: the sign follows the divisor, as [Z.modulo]. *)
Definition py_mod (a b : Z) : result Z :=
  if b =? 0 then Raise ZeroDivisionError else Ok (a mod b).

(** [range(n)]: empty when [n <= 0]. *)
Definition range (n : Z) : list Z := map Z.of_nat (seq 0 (Z.to_nat n)).

(** A Python float: a number, or [nan]. *)
Inductive pyfloat : Type :=
  | Fl (q : Q)
  | NaN.

(** A Python [dict] with string keys: insertion-ordered, one entry per key. *)
Definition dict (V : Type) : Type := list (string * V).

Fixpoint dict_get {V} (k : string) (d : dict V) : option V :=
  match d with
  | [] => None
  | (k', v) :: d' => if String.eqb k' k then Some v else dict_get k d'
  end.

(** [d[k] = v]: overwrite in place, or append a new entry at the end. *)
Fixpoint dict_set {V} (k : string) (v : V) (d : dict V) : dict V :=
  match d with
  | [] => [(k, v)]
  | (k', v') :: d' =>
      if String.eqb k' k then (k', v) :: d' else (k', v') :: dict_set k v d'
  end.

(** [d.update(e)] *)
Definition dict_update {V} (d e : dict V) : dict V :=
  fold_left (fun acc kv => dict_set kv.1 kv.2 acc) e d.

Definition keys {V} (d : dict V) : list string := map fst d.

(** What [self._metrics] holds under a name: a list of floats, or (for
    ["update_count"]) a bare int. *)
Inductive acc : Type :=
  | AccList (l : list Q)
  | AccInt (n : Z).

Definition Qsum (l : list Q) : Q := fold_right Qplus (0 # 1)%Q l.

(** [float(np.mean(values))]: the arithmetic mean of a list, [nan] for the
    empty list, the number itself for a scalar. *)
Definition np_mean (values : acc) : pyfloat :=
  match values with
  | AccList [] => NaN
  | AccList l => Fl (Qsum l / inject_Z (Z.of_nat (length l)))%Q
  | AccInt n => Fl (inject_Z n)
  end.

(** ** Configuration and objects *)

(** The fields of [config] that [dreamer.py] reads (Python ints). *)
Record Config : Type := {
  batch_size : Z;
  batch_length : Z;
  train_ratio : Z;
  log_every : Z;
  reset_every : Z;
  expl_until : Z;
  action_repeat : Z;
  pretrain : Z
}.

(** A tensor, as the bytes a checkpoint stores for it. *)
Definition Tensor : Type := list Byte.byte.

Section Agent.

(** The collaborators of [dreamer.py] that are not among the sources. *)
Context {Batch Post Obs PState Out ObsSpace ActSpace DS Hidden : Type}.

(** [models.WorldModel] and [models.ActorCritic]: the actor-critic keeps a
    reference to the world model, so the two are one shared store: the named
    parameter tensors and whatever else the components keep. *)
Record Models : Type := {
  params : gmap string Tensor;
  hidden : Hidden
}.

(** [models.WorldModel(obs_space, act_space, step, config)] followed by
    [models.ActorCritic(config, world_model)]. *)
Variable models_new : ObsSpace -> ActSpace -> Z -> Config -> Models.
(** [world_model.train(data)]: the posterior states and the metrics (the
    context is not used by the agent). *)
Variable world_model_train : Models -> Batch -> Models * (Post * dict Q).
(** [actor_critic.train(post, reward)[-1]]: the metrics. *)
Variable actor_critic_train : Models -> Post -> Models * dict Q.
(** [actor_critic.policy(obs, state, training, explore)], taken to return:
    an exception of the policy itself is outside this model. *)
Variable policy :
  Models -> Obs -> option PState -> bool -> bool -> Models * (Out * PState).
(** [next(dataset)] on the endless dataset iterator. *)
Variable dataset_next : DS -> Batch * DS.

Record Dreamer : Type := {
  _config : Config;
  _log_every : Z;
  _num_train_steps : Z;
  _reset_every : Z;
  _expl_until : Z;
  pretrained : bool;
  _metrics : dict acc;
  _step : Z;
  _update_count : Z;
  _dataset : DS;
  models : Models
}.

(** What leaves the agent, in the order it happens. *)
Inductive Event : Type :=
  | EvNext (data : Batch)
  | EvWorldTrain (data : Batch) (post : Post)
  | EvActorTrain (post : Post)
  | EvRecord (name : string) (value : Q)
  | EvScalar (name : string) (value : pyfloat)
  | EvWrite
  | EvPolicy (training explore : bool).

(** The agent, the logger's step counter and the trace so far. *)
Record World : Type := {
  agent : Dreamer;
  logger_step : Z;
  trace : list Event
}.

(** *** [Dreamer.__init__] *)

Definition __init__ (obs_space : ObsSpace) (act_space : ActSpace)
    (config : Config) (logger_step0 : Z) (dataset : DS) : result Dreamer :=
  let batch_steps := batch_size config * batch_length config in
  match py_floordiv batch_steps (train_ratio config) with
  | Raise e => Raise e
  | Ok num_train_steps =>
      if num_train_steps =? 0 then Raise ValueError
      else
        match py_floordiv logger_step0 (action_repeat config) with
        | Raise e => Raise e
        | Ok step =>
            Ok {| _config := config;
                  _log_every := log_every config;
                  _num_train_steps := num_train_steps;
                  _reset_every := reset_every config;
                  _expl_until := expl_until config;
                  pretrained := false;
                  _metrics := [];
                  _step := step;
                  _update_count := 0;
                  _dataset := dataset;
                  models := models_new obs_space act_space step config |}
        end
  end.

(** *** The state-and-error monad of the agent's methods *)

Definition M (A : Type) : Type := World -> result A * World.

Definition ret {A} (a : A) : M A := fun w => (Ok a, w).

Definition bind {A B} (m : M A) (k : A -> M B) : M B :=
  fun w =>
    match m w with
    | (Ok a, w') => k a w'
    | (Raise e, w') => (Raise e, w')
    end.

Definition raise {A} (e : exn) : M A := fun w => (Raise e, w).

Definition lift {A} (r : result A) : M A := fun w => (r, w).

Notation "x <~ m ;; k" := (bind m (fun x => k))
  (at level 100, m at next level, right associativity).
Notation "m ;;; k" := (bind m (fun _ => k))
  (at level 100, right associativity).

Definition get_agent : M Dreamer := fun w => (Ok (agent w), w).

Definition modify_agent (f : Dreamer -> Dreamer) : M unit :=
  fun w =>
    (Ok tt, {| agent := f (agent w);
               logger_step := logger_step w;
               trace := trace w |}).

Definition set_logger_step (n : Z) : M unit :=
  fun w => (Ok tt, {| agent := agent w; logger_step := n; trace := trace w |}).

Definition emit (e : Event) : M unit :=
  fun w =>
    (Ok tt, {| agent := agent w;
               logger_step := logger_step w;
               trace := trace w ++ [e] |}).

(** A [for] loop: the body runs on each element in turn, and an exception
    leaves the loop. *)
Fixpoint for_each {A} (l : list A) (body : A -> M unit) : M unit :=
  match l with
  | [] => ret tt
  | x :: l' => body x ;;; for_each l' body
  end.

(** Field assignments on [self]. *)
Definition with_pretrained (b : bool) (a : Dreamer) : Dreamer :=
  {| _config := _config a; _log_every := _log_every a;
     _num_train_steps := _num_train_steps a; _reset_every := _reset_every a;
     _expl_until := _expl_until a; pretrained := b; _metrics := _metrics a;
     _step := _step a; _update_count := _update_count a;
     _dataset := _dataset a; models := models a |}.

Definition with_metrics (m : dict acc) (a : Dreamer) : Dreamer :=
  {| _config := _config a; _log_every := _log_every a;
     _num_train_steps := _num_train_steps a; _reset_every := _reset_every a;
     _expl_until := _expl_until a; pretrained := pretrained a; _metrics := m;
     _step := _step a; _update_count := _update_count a;
     _dataset := _dataset a; models := models a |}.

Definition with_step (n : Z) (a : Dreamer) : Dreamer :=
  {| _config := _config a; _log_every := _log_every a;
     _num_train_steps := _num_train_steps a; _reset_every := _reset_every a;
     _expl_until := _expl_until a; pretrained := pretrained a;
     _metrics := _metrics a; _step := n; _update_count := _update_count a;
     _dataset := _dataset a; models := models a |}.

Definition with_update_count (n : Z) (a : Dreamer) : Dreamer :=
  {| _config := _config a; _log_every := _log_every a;
     _num_train_steps := _num_train_steps a; _reset_every := _reset_every a;
     _expl_until := _expl_until a; pretrained := pretrained a;
     _metrics := _metrics a; _step := _step a; _update_count := n;
     _dataset := _dataset a; models := models a |}.

Definition with_dataset (ds : DS) (a : Dreamer) : Dreamer :=
  {| _config := _config a; _log_every := _log_every a;
     _num_train_steps := _num_train_steps a; _reset_every := _reset_every a;
     _expl_until := _expl_until a; pretrained := pretrained a;
     _metrics := _metrics a; _step := _step a;
     _update_count := _update_count a; _dataset := ds; models := models a |}.

Definition with_models (m : Models) (a : Dreamer) : Dreamer :=
  {| _config := _config a; _log_every := _log_every a;
     _num_train_steps := _num_train_steps a; _reset_every := _reset_every a;
     _expl_until := _expl_until a; pretrained := pretrained a;
     _metrics := _metrics a; _step := _step a;
     _update_count := _update_count a; _dataset := _dataset a; models := m |}.

(** [next(self._dataset)] *)
Definition next_dataset : M Batch :=
  a <~ get_agent ;;
  let '(data, ds) := dataset_next (_dataset a) in
  modify_agent (with_dataset ds) ;;;
  emit (EvNext data) ;;;
  ret data.

(** [self.world_model.train(data)] *)
Definition call_world_model_train (data : Batch) : M (Post * dict Q) :=
  a <~ get_agent ;;
  let '(m, (post, mets)) := world_model_train (models a) data in
  modify_agent (with_models m) ;;;
  emit (EvWorldTrain data post) ;;;
  ret (post, mets).

(** [self.actor_critic.train(post, reward)[-1]] *)
Definition call_actor_critic_train (post : Post) : M (dict Q) :=
  a <~ get_agent ;;
  let '(m, mets) := actor_critic_train (models a) post in
  modify_agent (with_models m) ;;;
  emit (EvActorTrain post) ;;;
  ret mets.

(** One round of the loop at the end of [_train]: the value goes into
    [self._metrics[name]], as a new one-element list or appended to the list
    that is there; an int has no [append]. *)
Definition record_metric (kv : string * Q) : M unit :=
  a <~ get_agent ;;
  match dict_get kv.1 (_metrics a) with
  | None =>
      modify_agent (fun a => with_metrics (dict_set kv.1 (AccList [kv.2]) (_metrics a)) a) ;;;
      emit (EvRecord kv.1 kv.2)
  | Some (AccList l) =>
      modify_agent (fun a => with_metrics (dict_set kv.1 (AccList (l ++ [kv.2])) (_metrics a)) a) ;;;
      emit (EvRecord kv.1 kv.2)
  | Some (AccInt _) => raise AttributeError
  end.

(** *** [Dreamer._train] *)

Definition _train (data : Batch) : M unit :=
  let metrics : dict Q := [] in
  r <~ call_world_model_train data ;;
  let metrics := dict_update metrics r.2 in
  mets <~ call_actor_critic_train r.1 ;;
  let metrics := dict_update metrics mets in
  for_each metrics record_metric.

(** One round of the training loop of [__call__]. *)
Definition train_round (i : Z) : M unit :=
  data <~ next_dataset ;;
  _train data ;;;
  a <~ get_agent ;;
  let count := _update_count a + 1 in
  modify_agent (with_update_count count) ;;;
  modify_agent
    (fun a => with_metrics (dict_set "update_count" (AccInt count) (_metrics a)) a) ;;;
  emit (EvRecord "update_count" (inject_Z count)).

(** One round of the logging loop of [__call__]. *)
Definition log_metric (kv : string * acc) : M unit :=
  emit (EvScalar kv.1 (np_mean kv.2)) ;;;
  modify_agent (fun a => with_metrics (dict_set kv.1 (AccList []) (_metrics a)) a).

(** [not self.pretrained or self._step % self._log_every == 0] *)
Definition should_log (a : Dreamer) : M bool :=
  if negb (pretrained a) then ret true
  else r <~ lift (py_mod (_step a) (_log_every a)) ;; ret (r =? 0).

(** *** [Dreamer.__call__] *)

(** [self._config.pretrain if not self.pretrained else self._num_train_steps] *)
Definition num_steps (a : Dreamer) : Z :=
  if negb (pretrained a) then pretrain (_config a) else _num_train_steps a.

(** The body of [if training:]. *)
Definition training_block (done : list bool) : M unit :=
  a <~ get_agent ;;
  for_each (range (num_steps a)) train_round ;;;
  a <~ get_agent ;;
  log <~ should_log a ;;
  (if log : bool then
     for_each (_metrics a) log_metric ;;;
     emit EvWrite
   else ret tt) ;;;
  modify_agent (with_pretrained true) ;;;
  modify_agent (fun a => with_step (_step a + Z.of_nat (length done)) a) ;;;
  a <~ get_agent ;;
  set_logger_step (action_repeat (_config a) * _step a).

(** The policy call that ends [__call__]. *)
Definition policy_block (obs : Obs) (state : option PState) (training : bool)
    : M (Out * PState) :=
  a <~ get_agent ;;
  let explore := _step a <? _expl_until a in
  let '(m, out) := policy (models a) obs state training explore in
  modify_agent (with_models m) ;;;
  emit (EvPolicy training explore) ;;;
  ret out.

Definition __call__ (obs : Obs) (done : list bool) (state : option PState)
    (training : bool) : M (Out * PState) :=
  (if training then training_block done else ret tt) ;;;
  policy_block obs state training.

(** *** Checkpoints

    Modelled from the spec: [get_state_dict], [load_state_dict], [safe_save]
    and [safe_load] of [tinygrad.nn.state] are not among the sources.  The
    checkpoint is "a single serialized mapping from parameter name to tensor
    value, covering the world model and actor-critic parameters": the file is
    the list of the (name, tensor) entries; loading it gives the mapping
    back, and loading a state dict into the agent replaces each parameter of
    the agent by the tensor stored under its name (a parameter the mapping
    does not name keeps its value). *)

Definition get_state_dict (a : Dreamer) : gmap string Tensor :=
  params (models a).


Definition safe_load (file : list (string * Tensor)) : gmap string Tensor :=
  list_to_map file.

Definition load_state_dict (a : Dreamer) (state_dict : gmap string Tensor) : Dreamer :=
  with_models
    {| params := map_imap (fun k old => Some (default old (state_dict !! k)))
                          (params (models a));
       hidden := hidden (models a) |} a.

(** *** [main]: constructing the agent and resuming from a checkpoint

    [checkpoint] is the content of [logdir / "latest.safetensors"] when that
    file exists. *)

Definition main_startup (obs_space : ObsSpace) (act_space : ActSpace)
    (config : Config) (logger_step0 : Z) (train_dataset : DS)
    (checkpoint : option (list (string * Tensor))) : result World :=
  match __init__ obs_space act_space config logger_step0 train_dataset with
  | Raise e => Raise e
  | Ok a =>
      let a :=
        match checkpoint with
        | Some file =>
            let state_dict := safe_load file in
            with_pretrained true (load_state_dict a state_dict)
        | None => a
        end in
      Ok {| agent := a; logger_step := logger_step0; trace := [] |}
  end.


(** The simulation loop ([env.simulate]) calls the agent again and again. *)
Definition call_step (w w' : World) : Prop :=
  exists obs done state training out,
    __call__ obs done state training w = (Ok out, w').

(** ... and, during evaluation, with [training=False]. *)
Definition eval_step (w w' : World) : Prop :=
  exists obs done state out, __call__ obs done state false w = (Ok out, w').

(** *** Reading the trace *)

(** The events of one training step. *)
Definition is_train_event (e : Event) : bool :=
  match e with
  | EvNext _ | EvWorldTrain _ _ | EvActorTrain _ => true
  | _ => false
  end.

Definition is_update (e : Event) : bool :=
  match e with EvActorTrain _ => true | _ => false end.

(** How many updates (world model, then actor-critic) a trace holds. *)
Definition n_updates (tr : list Event) : nat := length (filter is_update tr).

(** A chain of [k] training steps, as the trace shows them: each step pulls
    one batch, trains the world model on it, and trains the actor-critic on
    the posterior states that very call returned. *)
Inductive step_chain : nat -> Models -> DS -> list Event -> Models -> DS -> Prop :=
  | chain_nil m ds : step_chain 0 m ds [] m ds
  | chain_cons k m ds data ds1 m1 post mets m2 mets' tr m3 ds3 :
      dataset_next ds = (data, ds1) ->
      world_model_train m data = (m1, (post, mets)) ->
      actor_critic_train m1 post = (m2, mets') ->
      step_chain k m2 ds1 tr m3 ds3 ->
      step_chain (S k) m ds
        (EvNext data :: EvWorldTrain data post :: EvActorTrain post :: tr) m3 ds3.

(** The values recorded under [name] since the last write. *)
Definition pend_step (name : string) (vals : list Q) (e : Event) : list Q :=
  match e with
  | EvWrite => []
  | EvRecord n v => if String.eqb n name then vals ++ [v] else vals
  | _ => vals
  end.

Definition pending (name : string) (tr : list Event) : list Q :=
  fold_left (pend_step name) tr [].

(** Every accumulator of [self._metrics] is the empty list. *)
Definition all_reset (d : dict acc) : Prop :=
  Forall (fun kv => kv.2 = AccList []) d.

(** The metrics of the models never use the name under which the agent
    keeps its update count. *)
Definition no_update_count_metric : Prop :=
  (forall m data, "update_count" ∉ keys (world_model_train m data).2.2)
  /\ (forall m post, "update_count" ∉ keys (actor_critic_train m post).2).

(** *** Invariants of the metric accumulators *)

(** What the training loop can emit. *)
Definition is_training_kind (e : Event) : bool :=
  match e with
  | EvScalar _ _ | EvWrite | EvPolicy _ _ => false
  | _ => true
  end.

(** The accumulator of a model metric is the list of the values recorded
    for it since the last write. *)
Definition tracks (name : string) (w : World) : Prop :=
  match dict_get name (_metrics (agent w)) with
  | Some (AccList l) => l = pending name (trace w)
  | Some (AccInt _) => False
  | None => pending name (trace w) = []
  end.

Definition metrics_inv (w : World) : Prop :=
  NoDup (keys (_metrics (agent w)))
  /\ forall name, name <> "update_count" -> tracks name w.

(** Every scalar reported so far, except the update count, is the mean of
    the values recorded under its name since the write before it. *)
Definition scalars_ok (tr : list Event) : Prop :=
  forall pre name v post,
    tr = pre ++ EvScalar name v :: post ->
    name <> "update_count" ->
    v = np_mean (AccList (pending name pre)).

Definition metrics_ok (w : World) : Prop :=
  metrics_inv w /\ scalars_ok (trace w).

(** The world once [logger.write] has been called. *)
Definition written (w : World) : World :=
  {| agent := agent w; logger_step := logger_step w; trace := trace w ++ [EvWrite] |}.

(** The world once the training block has set [pretrained], advanced
    [_step] by [len(done)] and set the logger's step. *)
Definition stepped (done : list bool) (w : World) : World :=
  let step := _step (agent w) + Z.of_nat (length done) in
  {| agent := with_step step (with_pretrained true (agent w));
     logger_step := action_repeat (_config (agent w)) * step;
     trace := trace w |}.

(** What the training loop leaves alone. *)
Definition same_settings (w w' : World) : Prop :=
  _config (agent w') = _config (agent w)
  /\ _log_every (agent w') = _log_every (agent w)
  /\ _num_train_steps (agent w') = _num_train_steps (agent w)
  /\ _expl_until (agent w') = _expl_until (agent w)
  /\ pretrained (agent w') = pretrained (agent w)
  /\ _step (agent w') = _step (agent w)
  /\ logger_step w' = logger_step w.

(** [k] training steps lead from [w] to [w']. *)
Definition train_rel (k : nat) (w w' : World) : Prop :=
  same_settings w w'
  /\ (metrics_ok w -> metrics_ok w')
  /\ exists new,
      trace w' = trace w ++ new
      /\ Forall (fun e => is_training_kind e = true) new
      /\ step_chain k (models (agent w)) (_dataset (agent w))
           (filter (fun e => is_train_event e = true) new)
           (models (agent w')) (_dataset (agent w')).

End Agent.

(** ** The returns estimator

    Modelled from the spec: [ActorCritic._compute_target] lives in
    [models.py], which is not among the sources.  The spec gives the
    recursion [target[t] = reward[t] + discount[t] * ((1-lambda)*value[t+1]
    + lambda*target[t+1])] with [target[H] = value[H]], over exact numbers.
    [reward] and [discount] hold the entries [0 .. H-1], [value] the entries
    [0 .. H]; the result holds [target[0 .. H]]. *)

Fixpoint lambda_return (lam : Q) (reward discount value : list Q) : list Q :=
  match reward, discount, value with
  | r :: reward', d :: discount', _ :: value' =>
      let rest := lambda_return lam reward' discount' value' in
      (r + d * ((1 - lam) * hd 0 value' + lam * hd 0 rest))%Q :: rest
  | _, _, v :: _ => [v]
  | _, _, [] => []
  end.

(** ** The moving percentiles of the returns

    Modelled from the spec: [models.RewardEMA] is not among the sources.  The
    spec gives the update [ema_vals[i] = decay*ema_vals[i] +
    (1-decay)*percentile_i(targets)], the scale [max(1, p95-p5)] and the
    offset [p5], both read from the moving estimates; how a percentile of the
    targets is computed is left open, so it is a parameter.  The call returns
    the offset, the scale and the new estimates, as the test unpacks them. *)

Section RewardEMA.

Variable percentile : Q -> list Q -> Q.

Definition ema_update (decay : Q) (targets : list Q) (ema_vals : Q * Q) : Q * Q :=
  ((decay * ema_vals.1 + (1 - decay) * percentile (5 # 100) targets)%Q,
   (decay * ema_vals.2 + (1 - decay) * percentile (95 # 100) targets)%Q).

Definition reward_ema (decay : Q) (targets : list Q) (ema_vals : Q * Q)
    : Q * Q * (Q * Q) :=
  let ema_vals := ema_update decay targets ema_vals in
  let scale := Qmax 1 (ema_vals.2 - ema_vals.1) in
  let offset := ema_vals.1 in
  (offset, scale, ema_vals).

End RewardEMA.

(** ** A small instance, for examples *)

Module Demo.

Definition cfg : Config :=
  {| batch_size := 16; batch_length := 64; train_ratio := 512;
     log_every := 10; reset_every := 0; expl_until := 5;
     action_repeat := 2; pretrain := 2 |}.

(** A negative train ratio. *)
Definition cfg_neg : Config :=
  {| batch_size := 16; batch_length := 64; train_ratio := -512;
     log_every := 10; reset_every := 0; expl_until := 5;
     action_repeat := 2; pretrain := 2 |}.

Definition models_new (_ _ : unit) (_ : Z) (_ : Config) : @Models nat :=
  {| params := {[ "actor.weight" := [Byte.x01] ]}; hidden := 0%nat |}.

Definition world_model_train (m : @Models nat) (data : nat)
    : @Models nat * (nat * dict Q) :=
  ({| params := params m; hidden := S (hidden m) |},
   (data, [("kl", inject_Z (Z.of_nat data))])).

Definition actor_critic_train (m : @Models nat) (post : nat)
    : @Models nat * dict Q :=
  (m, [("actor_loss", (1 # 2)%Q)]).

Definition policy (m : @Models nat) (_ : unit) (_ : option unit)
    (_ _ : bool) : @Models nat * (unit * unit) :=
  (m, (tt, tt)).

Definition dataset_next (n : nat) : nat * nat := (n, S n).

(** The checkpoint of an earlier run. *)
Definition latest : list (string * Tensor) :=
  [("actor.weight"%string, [Byte.x02; Byte.x03])].

Definition call := __call__ world_model_train actor_critic_train policy dataset_next.

Definition startup (config : Config) (checkpoint : option (list (string * Tensor)))
    : result (@World nat nat nat nat) :=
  main_startup models_new tt tt config 0 0%nat checkpoint.

(** Start-up without a checkpoint, then one training call. *)
Definition first_call : option (result (unit * unit) * @World nat nat nat nat) :=
  match startup cfg None with
  | Ok w => Some (call tt [false] None true w)
  | Raise _ => None
  end.

End Demo.

(** ** Further readings of the agent's state and trace *)

Section Readings.

Context {Batch Post DS : Type}.
Variable dataset_next : DS -> Batch * DS.

(** The dataset iterator after [k] calls of [next]. *)
Definition pulled (k : nat) (ds : DS) : DS :=
  Nat.iter k (fun ds => (dataset_next ds).2) ds.

Definition is_policy (e : @Event Batch Post) : bool :=
  match e with EvPolicy _ _ => true | _ => false end.

(** The names under which scalars were reported, in order. *)
Definition scalar_names (tr : list (@Event Batch Post)) : list string :=
  omap (fun e => match e with EvScalar name _ => Some name | _ => None end) tr.

End Readings.

(** *** [main]: the cadences in agent steps

    [main] divides [config.steps], [config.eval_every] and
    [config.log_every] by [config.action_repeat] before it constructs the
    agent.  Of the three the agent reads [log_every]; the other two are read
    by [main]'s loop alone and are not fields of [Config]. *)
Definition main_scale_config (config : Config) : result Config :=
  match py_floordiv (log_every config) (action_repeat config) with
  | Raise e => Raise e
  | Ok scaled =>
      Ok {| batch_size := batch_size config;
            batch_length := batch_length config;
            train_ratio := train_ratio config;
            log_every := scaled;
            reset_every := reset_every config;
            expl_until := expl_until config;
            action_repeat := action_repeat config;
            pretrain := pretrain config |}
  end.

(** ** Instances for the edge cases *)

Module Edge.

(** A log cadence below the action repeat: [1 // 2 = 0]. *)
Definition cfg_log1 : Config :=
  {| batch_size := 16; batch_length := 64; train_ratio := 512;
     log_every := 1; reset_every := 0; expl_until := 5;
     action_repeat := 2; pretrain := 2 |}.

(** A world model that reports a metric named ["update_count"]. *)
Definition world_model_train (m : @Models nat) (data : nat)
    : @Models nat * (nat * dict Q) :=
  (m, (data, [("update_count", 7%Q); ("kl", 1%Q)])).

Definition call :=
  __call__ world_model_train Demo.actor_critic_train Demo.policy Demo.dataset_next.



End Edge.

(** ** Runs of the small instance *)

Module Run.

Definition blank : @World nat nat nat nat :=
  {| agent := {| _config := Demo.cfg; _log_every := 0; _num_train_steps := 0;
                 _reset_every := 0; _expl_until := 0; pretrained := false;
                 _metrics := []; _step := 0; _update_count := 0;
                 _dataset := 0%nat; models := Demo.models_new tt tt 0 Demo.cfg |};
     logger_step := 0;
     trace := [] |}.

Definition world_of (r : result (@World nat nat nat nat)) : @World nat nat nat nat :=
  match r with Ok w => w | Raise _ => blank end.

(** Five environments are stepped at once: [len(done) = 5]. *)
Definition done5 : list bool := [false; false; false; false; false].

(** Start-up without a checkpoint, and the world after the first call. *)
Definition w0 : @World nat nat nat nat :=
  Eval vm_compute in world_of (Demo.startup Demo.cfg None).

Definition w1 : @World nat nat nat nat :=
  Eval vm_compute in (Demo.call tt done5 None true w0).2.


(** The same with the log cadence 1 scaled by [main] to [1 // 2 = 0]. *)
Definition cfg_scaled : Config :=
  Eval vm_compute in
    match main_scale_config Edge.cfg_log1 with Ok c => c | Raise _ => Demo.cfg end.

Definition z0 : @World nat nat nat nat :=
  Eval vm_compute in world_of (Demo.startup cfg_scaled None).

Definition z1 : @World nat nat nat nat :=
  Eval vm_compute in (Demo.call tt done5 None true z0).2.

(** The same with the negative train ratio. *)
Definition n0 : @World nat nat nat nat :=
  Eval vm_compute in world_of (Demo.startup Demo.cfg_neg None).

Definition n1 : @World nat nat nat nat :=
  Eval vm_compute in (Demo.call tt done5 None true n0).2.

End Run.

(** * Properties *)

(** ** Python dicts *)

Lemma dict_get_set_eq {V} (k : string) (v : V) (d : dict V) :
  dict_get k (dict_set k v d) = Some v.
Proof.
  induction d as [|[k' v'] d IH]; simpl.
  - by rewrite String.eqb_refl.
  - destruct (String.eqb_spec k' k) as [->|Hne]; simpl.
    + by rewrite String.eqb_refl.
    + destruct (String.eqb_spec k' k); [done | exact IH].
Qed.

Lemma dict_get_set_ne {V} (k k' : string) (v : V) (d : dict V) :
  k <> k' -> dict_get k' (dict_set k v d) = dict_get k' d.
Proof.
  intros Hne. induction d as [|[k0 v0] d IH]; simpl.
  - destruct (String.eqb_spec k k'); [done | reflexivity].
  - destruct (String.eqb_spec k0 k) as [->|Hk]; simpl.
    + destruct (String.eqb_spec k k'); [done | reflexivity].
    + destruct (String.eqb_spec k0 k'); [reflexivity | exact IH].
Qed.

Lemma dict_get_None {V} (k : string) (d : dict V) :
  dict_get k d = None <-> k ∉ keys d.
Proof.
  induction d as [|[k' v'] d IH]; simpl.
  - split; [intros _; apply not_elem_of_nil | done].
  - rewrite not_elem_of_cons.
    destruct (String.eqb_spec k' k) as [->|Hne]; split; try done.
    + intros [? _]; done.
    + intros H; split; [congruence | by apply IH].
    + intros [_ H]; by apply IH.
Qed.

Lemma keys_dict_set {V} (k : string) (v : V) (d : dict V) :
  keys (dict_set k v d) = if dict_get k d is Some _ then keys d else keys d ++ [k].
Proof.
  induction d as [|[k' v'] d IH]; simpl; [done|].
  destruct (String.eqb_spec k' k) as [->|Hne]; simpl; [done|].
  rewrite IH. by destruct (dict_get k d).
Qed.

Lemma NoDup_keys_dict_set {V} (k : string) (v : V) (d : dict V) :
  NoDup (keys d) -> NoDup (keys (dict_set k v d)).
Proof.
  intros Hnd. rewrite keys_dict_set.
  destruct (dict_get k d) eqn:Hget; [done|].
  apply NoDup_app. split; [done|]. split.
  - intros x Hx Hin. apply list_elem_of_singleton in Hin as ->.
    by apply dict_get_None in Hget.
  - apply NoDup_singleton.
Qed.

Lemma dict_get_elem_of {V} (k : string) (v : V) (d : dict V) :
  NoDup (keys d) -> (k, v) ∈ d -> dict_get k d = Some v.
Proof.
  induction d as [|[k' v'] d IH]; simpl; intros Hnd Hin.
  - by apply elem_of_nil in Hin.
  - apply NoDup_cons in Hnd as [Hk' Hnd].
    apply elem_of_cons in Hin as [[= <- <-]|Hin].
    + by rewrite String.eqb_refl.
    + destruct (String.eqb_spec k' k) as [->|Hne]; [|by apply IH].
      exfalso. apply Hk'. apply list_elem_of_fmap. by exists (k, v).
Qed.

Lemma dict_set_middle {V} (k : string) (v v0 : V) (d1 d2 : dict V) :
  k ∉ keys d1 -> dict_set k v (d1 ++ (k, v0) :: d2) = d1 ++ (k, v) :: d2.
Proof.
  induction d1 as [|[k' v'] d1 IH]; simpl; intros Hk.
  - by rewrite String.eqb_refl.
  - apply not_elem_of_cons in Hk as [Hne Hk].
    destruct (String.eqb_spec k' k) as [->|_]; [done|]. by rewrite IH.
Qed.

(** ** Construction *)

Section AgentFacts.

Context {Batch Post Obs PState Out ObsSpace ActSpace DS Hidden : Type}.
Variable models_new : ObsSpace -> ActSpace -> Z -> Config -> @Models Hidden.
Variable world_model_train :
  @Models Hidden -> Batch -> @Models Hidden * (Post * dict Q).
Variable actor_critic_train : @Models Hidden -> Post -> @Models Hidden * dict Q.
Variable policy :
  @Models Hidden -> Obs -> option PState -> bool -> bool ->
  @Models Hidden * (Out * PState).
Variable dataset_next : DS -> Batch * DS.

Local Abbreviation World := (@World Batch Post DS Hidden).
Local Abbreviation Dreamer := (@Dreamer DS Hidden).
Local Abbreviation init := (__init__ models_new).
Local Abbreviation call :=
  (__call__ world_model_train actor_critic_train policy dataset_next).
Local Abbreviation startup := (@main_startup Batch Post _ _ _ _ models_new).

(** C1, as the code has it: the constructor raises [ValueError] exactly when
    the train ratio is not zero and the derived train-step count
    [batch_size * batch_length // train_ratio] is zero, and
    [ZeroDivisionError] exactly when the train ratio is zero or (the count
    being non-zero) [action_repeat] is zero; a negative count is accepted.  An
    agent that is constructed stores the count, which is then not zero, and
    positive as soon as [batch_size * batch_length >= 0] and
    [train_ratio > 0]. *)
Theorem init_raises_iff_zero_train_steps
    (obs_space : ObsSpace) (act_space : ActSpace) (config : Config)
    (logger_step0 : Z) (dataset : DS) :
  let count := batch_size config * batch_length config / train_ratio config in
  let r := init obs_space act_space config logger_step0 dataset in
  (r = Raise ValueError <-> train_ratio config <> 0 /\ count = 0)
  /\ (r = Raise ZeroDivisionError <->
      train_ratio config = 0 \/ (count <> 0 /\ action_repeat config = 0))
  /\ (forall a, r = Ok a ->
        _num_train_steps a = count /\ count <> 0
        /\ (0 <= batch_size config * batch_length config ->
            0 < train_ratio config -> 0 < _num_train_steps a)).
Proof.
  intros count r. subst r. unfold __init__, py_floordiv. fold count.
  destruct (Z.eqb_spec (train_ratio config) 0) as [Hr|Hr].
  { split; [split; [done | intros [? _]; done]|].
    split; [split; [by left | done] | done]. }
  destruct (Z.eqb_spec count 0) as [Hc|Hc].
  { split; [done|]. split; [|done].
    split; [done | intros [?|[? _]]; done]. }
  destruct (Z.eqb_spec (action_repeat config) 0) as [Ha|Ha].
  { split; [split; [done | intros [_ ?]; done]|].
    split; [split; [by right | done] | done]. }
  split; [split; [done | intros [_ ?]; done]|].
  split; [split; [done | intros [?|[_ ?]]; done]|].
  intros a [= <-]; simpl. split; [done|]. split; [done|].
  intros Hb Ht. assert (0 <= count) by (apply Z.div_pos; lia). lia.
Qed.

(** ** Reading the trace *)

Lemma pending_app (name : string) (tr tr' : list (@Event Batch Post)) :
  pending name (tr ++ tr') = fold_left (pend_step name) tr' (pending name tr).
Proof. unfold pending. apply fold_left_app. Qed.

Lemma pending_snoc (name : string) (tr : list (@Event Batch Post)) e :
  pending name (tr ++ [e]) = pend_step name (pending name tr) e.
Proof. by rewrite pending_app. Qed.

(** Events other than records and writes do not touch the pending values. *)
Lemma pending_app_quiet (name : string) (tr new : list (@Event Batch Post)) :
  Forall (fun e => forall vals, pend_step name vals e = vals) new ->
  pending name (tr ++ new) = pending name tr.
Proof.
  intros Hq. rewrite pending_app. generalize (pending name tr).
  induction Hq as [|e new He _ IH]; intros vals; simpl; [done|].
  by rewrite He.
Qed.

Lemma scalars_ok_nil : scalars_ok ([] : list (@Event Batch Post)).
Proof. intros [|? pre] name v post Heq; discriminate. Qed.

(** Extending a trace whose scalars are right: the new scalars are to be
    checked against the values pending where they appear. *)
Lemma scalars_ok_app (tr new : list (@Event Batch Post)) :
  scalars_ok tr ->
  (forall pre name v post,
      new = pre ++ EvScalar name v :: post ->
      name <> "update_count" ->
      v = np_mean (AccList (pending name (tr ++ pre)))) ->
  scalars_ok (tr ++ new).
Proof.
  intros Hold Hnew pre name v post Heq Hname.
  apply app_eq_inv in Heq as [(k & -> & Hk)|(k & -> & Hk)].
  - destruct k as [|e k]; simpl in Hk.
    + specialize (Hnew [] name v post). rewrite !app_nil_r in Hnew.
      by apply Hnew.
    + injection Hk as <- Hk. by eapply Hold.
  - by eapply Hnew.
Qed.

Lemma scalars_ok_app_quiet (tr new : list (@Event Batch Post)) :
  scalars_ok tr ->
  Forall (fun e => is_training_kind e = true) new ->
  scalars_ok (tr ++ new).
Proof.
  intros Hold Hq. apply scalars_ok_app; [done|].
  intros pre name v post -> _.
  apply Forall_app in Hq as [_ Hq]. by apply Forall_cons in Hq as [? _].
Qed.

(** ** Training steps *)

Lemma step_chain_app k1 k2 m ds tr1 m1 ds1 tr2 m2 ds2 :
  step_chain world_model_train actor_critic_train dataset_next k1 m ds tr1 m1 ds1 ->
  step_chain world_model_train actor_critic_train dataset_next k2 m1 ds1 tr2 m2 ds2 ->
  step_chain world_model_train actor_critic_train dataset_next
    (k1 + k2) m ds (tr1 ++ tr2) m2 ds2.
Proof.
  induction 1 as [|k m ds data ds' m' post mets m'' mets' tr m3 ds3 ? ? ? _ IH];
    intros H2; simpl; [done|].
  eapply chain_cons; eauto.
Qed.

Lemma same_settings_refl (w : World) : same_settings w w.
Proof. by repeat split. Qed.

Lemma same_settings_trans (w1 w2 w3 : World) :
  same_settings w1 w2 -> same_settings w2 w3 -> same_settings w1 w3.
Proof.
  unfold same_settings. intros (?&?&?&?&?&?&?) (?&?&?&?&?&?&?).
  repeat split; congruence.
Qed.

Local Abbreviation trains :=
  (train_rel world_model_train actor_critic_train dataset_next).

Lemma train_rel_refl (w : World) : trains 0%nat w w.
Proof.
  split; [apply same_settings_refl|]. split; [done|].
  exists []. rewrite app_nil_r. repeat split; [constructor | constructor].
Qed.

Lemma train_rel_trans (k1 k2 : nat) (w1 w2 w3 : World) :
  trains k1 w1 w2 -> trains k2 w2 w3 -> trains (k1 + k2)%nat w1 w3.
Proof.
  intros (Hs1 & Hm1 & new1 & Ht1 & Hk1 & Hc1) (Hs2 & Hm2 & new2 & Ht2 & Hk2 & Hc2).
  split; [by eapply same_settings_trans|]. split; [by auto|].
  exists (new1 ++ new2). rewrite Ht2, Ht1, app_assoc. split; [done|].
  split; [by apply Forall_app|].
  rewrite filter_app. by eapply step_chain_app.
Qed.

(** A loop whose rounds are no training steps is no training step. *)
Lemma for_each_trains_0 {A} (l : list A) (body : A -> M unit) (w : World) :
  (forall x w, trains 0%nat w (body x w).2) ->
  trains 0%nat w (for_each l body w).2.
Proof.
  intros Hbody. revert w. induction l as [|x l IH]; intros w; simpl.
  - apply train_rel_refl.
  - unfold bind. specialize (Hbody x w).
    destruct (body x w) as [[[]|e] w1]; simpl in *; [|done].
    apply (train_rel_trans 0 0 w w1); [done | apply IH].
Qed.

(** Recording a value keeps the accumulators in step with the trace. *)
Lemma metrics_ok_record (w : World) (k : string) (v : Q) (l : list Q) :
  metrics_ok w ->
  dict_get k (_metrics (agent w)) = Some (AccList l)
  \/ (dict_get k (_metrics (agent w)) = None /\ l = []) ->
  metrics_ok
    {| agent := with_metrics (dict_set k (AccList (l ++ [v])) (_metrics (agent w)))
                  (agent w);
       logger_step := logger_step w;
       trace := trace w ++ [EvRecord k v] |}.
Proof.
  intros [[Hnd Htr] Hsc] Hget. split; [split|]; simpl.
  - by apply NoDup_keys_dict_set.
  - intros name Hname. specialize (Htr name Hname).
    unfold tracks in *; simpl. rewrite pending_snoc; simpl.
    destruct (String.eqb_spec k name) as [->|Hne].
    + rewrite dict_get_set_eq.
      destruct Hget as [Hget|[Hget ->]]; rewrite Hget in Htr; by rewrite Htr.
    + by rewrite dict_get_set_ne.
  - apply scalars_ok_app_quiet; [done|]. by repeat constructor.
Qed.

Lemma record_metric_trains (kv : string * Q) (w : World) :
  trains 0%nat w (record_metric kv w).2.
Proof.
  unfold record_metric, bind, get_agent; simpl.
  destruct (dict_get kv.1 (_metrics (agent w))) as [[l|n]|] eqn:Hget; simpl;
    [| apply train_rel_refl |].
  - split; [by repeat split|]. split.
    + intros Hok. apply (metrics_ok_record w kv.1 kv.2 l Hok). by left.
    + exists [EvRecord kv.1 kv.2]. repeat split; [by repeat constructor|].
      constructor.
  - split; [by repeat split|]. split.
    + intros Hok. apply (metrics_ok_record w kv.1 kv.2 [] Hok). by right.
    + exists [EvRecord kv.1 kv.2]. repeat split; [by repeat constructor|].
      constructor.
Qed.

(** Pulling a batch, training and acting record nothing. *)
Lemma metrics_ok_quiet (w w' : World) (new : list Event) :
  metrics_ok w ->
  _metrics (agent w') = _metrics (agent w) ->
  trace w' = trace w ++ new ->
  Forall (fun e => is_training_kind e = true /\ forall name vals,
                     pend_step name vals e = vals) new ->
  metrics_ok w'.
Proof.
  intros [[Hnd Htr] Hsc] Hm Ht Hq. split; [split|].
  - by rewrite Hm.
  - intros name Hname. specialize (Htr name Hname). unfold tracks in *.
    rewrite Hm, Ht, pending_app_quiet; [done|].
    eapply Forall_impl; [exact Hq|]. intros e [_ He]. apply He.
  - rewrite Ht. apply scalars_ok_app_quiet; [done|].
    eapply Forall_impl; [exact Hq|]. by intros e [He _].
Qed.

Lemma metrics_ok_update_count (w : World) (c : Z) (q : Q) :
  metrics_ok w ->
  metrics_ok
    {| agent := with_metrics (dict_set "update_count" (AccInt c) (_metrics (agent w)))
                  (with_update_count c (agent w));
       logger_step := logger_step w;
       trace := trace w ++ [EvRecord "update_count" q] |}.
Proof.
  intros [[Hnd Htr] Hsc]. split; [split|]; simpl.
  - by apply NoDup_keys_dict_set.
  - intros name Hname. specialize (Htr name Hname).
    unfold tracks in *. cbn [agent trace _metrics with_metrics].
    rewrite pending_snoc. cbn [pend_step].
    destruct (String.eqb_spec "update_count" name) as [<-|Hne]; [done|].
    by rewrite dict_get_set_ne.
  - apply scalars_ok_app_quiet; [done|]. by repeat constructor.
Qed.

Local Abbreviation round :=
  (train_round world_model_train actor_critic_train dataset_next).

(** One round of the loop is one training step, whether or not recording
    its metrics raises; a round that returns leaves the update count under
    ["update_count"]. *)
Lemma train_round_trains (i : Z) (w : World) :
  trains 1%nat w (round i w).2
  /\ ((round i w).1 = Ok tt ->
      dict_get "update_count" (_metrics (agent (round i w).2))
      = Some (AccInt (_update_count (agent (round i w).2)))).
Proof.
  unfold train_round, next_dataset, _train, call_world_model_train,
    call_actor_critic_train, bind, get_agent; simpl.
  destruct (dataset_next (_dataset (agent w))) as [data ds1] eqn:Hds; simpl.
  destruct (world_model_train (models (agent w)) data) as [m1 [post mets]] eqn:Hwm; simpl.
  destruct (actor_critic_train m1 post) as [m2 mets'] eqn:Hac; simpl.
  match goal with |- context [for_each ?l record_metric ?x] =>
    set (metrics := l); set (w1 := x) end.
  assert (trains 1%nat w w1) as H01.
  { split; [by repeat split|]. split.
    - intros Hok.
      apply (metrics_ok_quiet w w1
               [EvNext data; EvWorldTrain data post; EvActorTrain post]);
        [done | done | by simpl; rewrite <- !app_assoc | by repeat constructor].
    - exists [EvNext data; EvWorldTrain data post; EvActorTrain post].
      split; [by simpl; rewrite <- !app_assoc|].
      split; [by repeat constructor|].
      eapply chain_cons; eauto. constructor. }
  pose proof (for_each_trains_0 metrics record_metric w1 record_metric_trains) as H12.
  destruct (for_each metrics record_metric w1) as [[[]|e] w2]; simpl in *.
  - split; [|by rewrite dict_get_set_eq].
    apply (train_rel_trans 1 0 w w2); [by apply (train_rel_trans 1 0 w w1)|].
    split; [by repeat split|]. split.
    + apply metrics_ok_update_count.
    + eexists [EvRecord "update_count" _]. repeat split; [by repeat constructor|].
      constructor.
  - split; [|done]. by apply (train_rel_trans 1 0 w w1).
Qed.

(** The training loop: as many training steps as it has rounds when it
    returns, at most that many when a round raises. *)
Lemma train_loop_trains (l : list Z) (w : World) :
  exists k,
    trains k w (for_each l round w).2
    /\ (k <= length l)%nat
    /\ ((for_each l round w).1 = Ok tt ->
        k = length l
        /\ (l <> [] ->
            dict_get "update_count" (_metrics (agent (for_each l round w).2))
            = Some (AccInt (_update_count (agent (for_each l round w).2))))).
Proof.
  revert w. induction l as [|i l IH]; intros w; simpl.
  - exists 0%nat. split; [apply train_rel_refl|]. by split.
  - unfold bind. destruct (train_round_trains i w) as [H1 Huc].
    destruct (round i w) as [[[]|e] w1]; simpl in *.
    + destruct (IH w1) as (k & Hk & Hle & Hok).
      exists (1 + k)%nat. split; [by eapply train_rel_trans|].
      split; [lia|]. intros Hr. destruct (Hok Hr) as [-> Hl].
      split; [done|]. intros _. destruct l as [|j l]; [|by apply Hl].
      simpl. by apply Huc.
    + exists 1%nat. split; [done|]. split; [lia | done].
Qed.

(** ** Logging *)

(** The logging loop reports the mean of every accumulator, in the order of
    the dict, and empties it. *)
Lemma log_loop_exact (d done : dict acc) (w : World) :
  _metrics (agent w) = done ++ d ->
  NoDup (keys (done ++ d)) ->
  for_each d log_metric w
  = (Ok tt,
     {| agent := with_metrics (done ++ map (fun kv => (kv.1, AccList [])) d) (agent w);
        logger_step := logger_step w;
        trace := trace w ++ map (fun kv => EvScalar kv.1 (np_mean kv.2)) d |}).
Proof.
  revert done w. induction d as [|[k v] d IH]; intros done w Hm Hnd; simpl.
  - unfold ret. rewrite app_nil_r in Hm. rewrite !app_nil_r, <- Hm.
    by destruct w as [[] ? ?].
  - unfold bind, log_metric at 1, bind, emit, modify_agent; simpl.
    assert (k ∉ keys done) as Hk.
    { unfold keys in Hnd. rewrite map_app in Hnd. simpl in Hnd.
      apply NoDup_app in Hnd as (_ & Hnd & _).
      intros Hin. apply (Hnd k Hin). by left. }
    rewrite Hm, dict_set_middle by done.
    rewrite (IH (done ++ [(k, AccList [])])); simpl.
    + by rewrite <- !app_assoc.
    + by rewrite <- app_assoc.
    + rewrite <- app_assoc. simpl.
      unfold keys in *. rewrite map_app in *. exact Hnd.
Qed.

(** Whatever the dict holds, the logging loop returns, reports scalars and
    nothing else, and touches only the accumulators. *)
Lemma log_loop_frame (d : dict acc) (w : World) :
  exists w' new,
    for_each d log_metric w = (Ok tt, w')
    /\ agent w' = with_metrics (_metrics (agent w')) (agent w)
    /\ logger_step w' = logger_step w
    /\ trace w' = trace w ++ new
    /\ Forall (fun e => exists name v, e = EvScalar name v) new.
Proof.
  revert w. induction d as [|[k v] d IH]; intros w; simpl.
  - exists w, []. rewrite app_nil_r. repeat split; [|constructor].
    by destruct w as [[] ? ?].
  - unfold bind, log_metric at 1, bind, emit, modify_agent; simpl.
    match goal with |- context [for_each d log_metric ?x] =>
      destruct (IH x) as (w' & new & -> & Ha & Hl & Ht & Hnew) end.
    simpl in *. exists w', (EvScalar k (np_mean v) :: new).
    split; [done|]. split; [by rewrite Ha|]. split; [done|].
    split; [by rewrite Ht, <- app_assoc|].
    constructor; [by eauto | done].
Qed.

Lemma dict_get_reset (name : string) (d : dict acc) :
  dict_get name (map (fun kv => (kv.1, AccList [])) d)
  = match dict_get name d with Some _ => Some (AccList []) | None => None end.
Proof.
  induction d as [|[k v] d IH]; simpl; [done|].
  by destruct (String.eqb_spec k name).
Qed.

(** After the scalars and the write, the accumulators and the trace agree
    again, and the scalars that were reported are the means of what was
    pending. *)
Lemma metrics_ok_write (w : World) :
  metrics_ok w ->
  metrics_ok
    {| agent := with_metrics (map (fun kv => (kv.1, AccList [])) (_metrics (agent w)))
                  (agent w);
       logger_step := logger_step w;
       trace := (trace w ++ map (fun kv => EvScalar kv.1 (np_mean kv.2))
                              (_metrics (agent w))) ++ [EvWrite] |}.
Proof.
  intros [[Hnd Htr] Hsc]. split; [split|]; cbn [agent trace _metrics with_metrics].
  - unfold keys in *. rewrite map_map. exact Hnd.
  - intros name Hname. unfold tracks. cbn [agent trace _metrics with_metrics].
    rewrite pending_snoc, dict_get_reset. cbn [pend_step].
    by destruct (dict_get name (_metrics (agent w))).
  - apply scalars_ok_app.
    + apply scalars_ok_app; [done|].
      intros pre name v post Heq Hname.
      apply fmap_app_inv in Heq as (d1 & d2 & -> & Heq & Hd).
      symmetry in Heq. apply fmap_cons_inv in Heq as (kv & d3 & [= -> ->] & _ & ->).
      rewrite pending_app_quiet.
      2:{ apply Forall_fmap, Forall_true. by intros ??. }
      specialize (Htr _ Hname). unfold tracks in Htr.
      rewrite (dict_get_elem_of kv.1 kv.2) in Htr.
      * destruct kv.2; [by rewrite Htr | done].
      * done.
      * rewrite Hd. apply elem_of_app. right. destruct kv. by left.
    + intros [|e [|e' pre]] name v post Heq; discriminate.
Qed.

(** ** The training block of a call *)

Local Abbreviation block :=
  (training_block world_model_train actor_critic_train dataset_next).

Lemma should_log_spec (a : Dreamer) (w : World) :
  should_log a w
  = (if negb (pretrained a) then Ok true
     else if _log_every a =? 0 then Raise ZeroDivisionError
     else Ok (_step a mod _log_every a =? 0), w).
Proof.
  unfold should_log, bind, lift, ret, py_mod.
  destruct (negb (pretrained a)); [done|].
  by destruct (_log_every a =? 0).
Qed.

Lemma training_block_unfold (done : list bool) (w : World) :
  block done w
  = match for_each (range (num_steps (agent w))) round w with
    | (Raise e, w1) => (Raise e, w1)
    | (Ok _, w1) =>
        match (should_log (agent w1) w1).1 with
        | Raise e => (Raise e, w1)
        | Ok true =>
            match for_each (_metrics (agent w1)) log_metric w1 with
            | (Ok _, w2) => (Ok tt, stepped done (written w2))
            | (Raise e, w2) => (Raise e, w2)
            end
        | Ok false => (Ok tt, stepped done w1)
        end
    end.
Proof.
  unfold training_block, bind at 1, get_agent at 1; simpl.
  unfold bind at 1.
  destruct (for_each (range (num_steps (agent w))) round w) as [[[]|e] w1]; [|done].
  unfold bind at 1, get_agent at 1; simpl. unfold bind at 1.
  rewrite should_log_spec; simpl.
  destruct (negb (pretrained (agent w1))); simpl.
  - unfold bind at 1. unfold bind at 1.
    destruct (for_each (_metrics (agent w1)) log_metric w1) as [[[]|e] w2]; done.
  - destruct (_log_every (agent w1) =? 0); [done|].
    destruct (_step (agent w1) mod _log_every (agent w1) =? 0); simpl; [|done].
    unfold bind at 1. unfold bind at 1.
    destruct (for_each (_metrics (agent w1)) log_metric w1) as [[[]|e] w2]; done.
Qed.

Lemma range_length (n : Z) : length (range n) = Z.to_nat n.
Proof. unfold range. by rewrite length_map, length_seq. Qed.

Lemma filter_train_event_nil (l : list (@Event Batch Post)) :
  Forall (fun e => is_train_event e = false) l ->
  filter (fun e => is_train_event e = true) l = [].
Proof.
  induction 1 as [|e l He _ IH]; [done|].
  rewrite filter_cons_False; [done | congruence].
Qed.

(** The chain of training steps is not disturbed by what follows it, as
    long as that touches neither the models nor the dataset. *)
Lemma chain_extend (k : nat) (w w1 w2 : World) (extra : list Event) :
  trains k w w1 ->
  models (agent w2) = models (agent w1) ->
  _dataset (agent w2) = _dataset (agent w1) ->
  trace w2 = trace w1 ++ extra ->
  Forall (fun e => is_train_event e = false) extra ->
  exists new,
    trace w2 = trace w ++ new
    /\ step_chain world_model_train actor_critic_train dataset_next k
         (models (agent w)) (_dataset (agent w))
         (filter (fun e => is_train_event e = true) new)
         (models (agent w2)) (_dataset (agent w2)).
Proof.
  intros (_ & _ & new & Ht & _ & Hc) Hm Hd Ht2 Hex.
  exists (new ++ extra). rewrite Ht2, Ht, app_assoc. split; [done|].
  by rewrite filter_app, (filter_train_event_nil extra), app_nil_r, Hm, Hd.
Qed.

(** The training block runs [range(num_steps)] training steps, in a chain;
    when it returns, [pretrained] is set, [_step] has advanced by
    [len(done)] and the logger's step follows it. *)
Lemma training_block_steps (done : list bool) (w : World) :
  exists k new,
    trace (block done w).2 = trace w ++ new
    /\ step_chain world_model_train actor_critic_train dataset_next k
         (models (agent w)) (_dataset (agent w))
         (filter (fun e => is_train_event e = true) new)
         (models (agent (block done w).2)) (_dataset (agent (block done w).2))
    /\ (k <= Z.to_nat (num_steps (agent w)))%nat
    /\ _expl_until (agent (block done w).2) = _expl_until (agent w)
    /\ _num_train_steps (agent (block done w).2) = _num_train_steps (agent w)
    /\ _config (agent (block done w).2) = _config (agent w)
    /\ (pretrained (agent w) = true -> pretrained (agent (block done w).2) = true)
    /\ ((block done w).1 = Ok tt ->
        k = Z.to_nat (num_steps (agent w))
        /\ pretrained (agent (block done w).2) = true
        /\ _step (agent (block done w).2) = _step (agent w) + Z.of_nat (length done)
        /\ logger_step (block done w).2
           = action_repeat (_config (agent w)) * _step (agent (block done w).2)).
Proof.
  rewrite training_block_unfold.
  destruct (train_loop_trains (range (num_steps (agent w))) w)
    as (k & Htr & Hle & Hok).
  rewrite range_length in Hle, Hok.
  destruct (for_each (range (num_steps (agent w))) round w) as [r1 w1].
  simpl in Htr, Hok.
  pose proof Htr as ((Hcfg & _ & Hnts & Hexp & Hpre & Hstep & _) & _).
  assert (forall w2 extra,
    agent w2 = with_metrics (_metrics (agent w2)) (agent w1) ->
    trace w2 = trace w1 ++ extra ->
    Forall (fun e => is_train_event e = false) extra ->
    exists new,
      trace (stepped done w2) = trace w ++ new
      /\ step_chain world_model_train actor_critic_train dataset_next k
           (models (agent w)) (_dataset (agent w))
           (filter (fun e => is_train_event e = true) new)
           (models (agent (stepped done w2))) (_dataset (agent (stepped done w2))))
    as Hfin.
  { intros w2 extra Ha Ht Hex.
    apply (chain_extend k w w1 (stepped done w2) extra Htr); simpl; try done.
    - by rewrite Ha.
    - by rewrite Ha. }
  assert (exists new,
    trace w1 = trace w ++ new
    /\ step_chain world_model_train actor_critic_train dataset_next k
         (models (agent w)) (_dataset (agent w))
         (filter (fun e => is_train_event e = true) new)
         (models (agent w1)) (_dataset (agent w1))) as (new1 & Ht1 & Hc1).
  { apply (chain_extend k w w1 w1 [] Htr); try done. by rewrite app_nil_r. }
  destruct r1 as [[]|e]; simpl.
  2:{ exists k, new1. repeat split; try done. by rewrite Hpre. }
  destruct (Hok eq_refl) as [-> _].
  rewrite should_log_spec; simpl.
  destruct (negb (pretrained (agent w1))) eqn:Hp; simpl.
  - destruct (log_loop_frame (_metrics (agent w1)) w1)
      as (w2 & scal & -> & Ha & Hl & Ht & Hsc).
    destruct (Hfin (written w2) (scal ++ [EvWrite])) as (new & Htn & Hcn).
    { simpl. by rewrite Ha. }
    { simpl. by rewrite Ht, app_assoc. }
    { apply Forall_app. split; [|by repeat constructor].
      eapply Forall_impl; [exact Hsc|]. by intros e (? & ? & ->). }
    exists (Z.to_nat (num_steps (agent w))), new. simpl in *.
    rewrite Ha in Hcn |- *; simpl in *.
    repeat split; try done; [by rewrite Hstep | by rewrite Hcfg].
  - destruct (_log_every (agent w1) =? 0).
    { exists (Z.to_nat (num_steps (agent w))), new1. simpl.
      repeat split; try done. by rewrite Hpre. }
    destruct (_step (agent w1) mod _log_every (agent w1) =? 0); simpl.
    + destruct (log_loop_frame (_metrics (agent w1)) w1)
        as (w2 & scal & -> & Ha & Hl & Ht & Hsc).
      destruct (Hfin (written w2) (scal ++ [EvWrite])) as (new & Htn & Hcn).
      { simpl. by rewrite Ha. }
      { simpl. by rewrite Ht, app_assoc. }
      { apply Forall_app. split; [|by repeat constructor].
        eapply Forall_impl; [exact Hsc|]. by intros e (? & ? & ->). }
      exists (Z.to_nat (num_steps (agent w))), new. simpl in *.
      rewrite Ha in Hcn |- *; simpl in *.
      repeat split; try done; [by rewrite Hstep | by rewrite Hcfg].
    + destruct (Hfin w1 []) as (new & Htn & Hcn).
      { by destruct (agent w1). }
      { by rewrite app_nil_r. }
      { constructor. }
      exists (Z.to_nat (num_steps (agent w))), new. simpl in *.
      repeat split; try done; [by rewrite Hstep | by rewrite Hcfg].
Qed.

Lemma dict_get_Some_elem_of {V} (k : string) (v : V) (d : dict V) :
  dict_get k d = Some v -> (k, v) ∈ d.
Proof.
  induction d as [|[k' v'] d IH]; simpl; [done|].
  destruct (String.eqb_spec k' k) as [->|_].
  - intros [= ->]. by left.
  - intros H. right. by apply IH.
Qed.

Lemma range_nonempty (n : Z) : 0 < n -> range n <> [].
Proof.
  intros Hn Hnil. apply (f_equal length) in Hnil.
  rewrite range_length in Hnil. simpl in Hnil. lia.
Qed.

Lemma training_kind_not_write (new : list (@Event Batch Post)) :
  Forall (fun e => is_training_kind e = true) new -> EvWrite ∉ new.
Proof.
  intros Hall Hin. rewrite Forall_forall in Hall. by specialize (Hall _ Hin).
Qed.

(** The training block on the accumulators: they stay in step with the
    trace; a write empties all of them; the block writes exactly when the
    agent was not pretrained or the step counter is on the log cadence; and
    what it reports under ["update_count"] is the count itself. *)
Lemma training_block_metrics (done : list bool) (w : World) :
  metrics_ok w ->
  metrics_ok (block done w).2
  /\ exists new,
      trace (block done w).2 = trace w ++ new
      /\ (EvWrite ∈ new -> all_reset (_metrics (agent (block done w).2)))
      /\ ((block done w).1 = Ok tt ->
          (EvWrite ∈ new <->
           pretrained (agent w) = false
           \/ _step (agent w) mod _log_every (agent w) = 0))
      /\ ((block done w).1 = Ok tt -> EvWrite ∈ new ->
          0 < num_steps (agent w) ->
          EvScalar "update_count"
            (Fl (inject_Z (_update_count (agent (block done w).2)))) ∈ new).
Proof.
  intros Hok0. rewrite training_block_unfold.
  destruct (train_loop_trains (range (num_steps (agent w))) w)
    as (k & Htr & _ & Hok).
  destruct (for_each (range (num_steps (agent w))) round w) as [r1 w1].
  simpl in Htr, Hok.
  destruct Htr as ((_ & Hlog & _ & _ & Hpre & Hstep & _) & Hm1 & new1 & Ht1 & Hk1 & _).
  specialize (Hm1 Hok0).
  pose proof (training_kind_not_write new1 Hk1) as Hnw.
  destruct r1 as [[]|e]; simpl.
  2:{ split; [done|]. exists new1. split; [done|].
      split; [intros Hin; by destruct (Hnw Hin)|]. by split. }
  rewrite should_log_spec; simpl.
  assert (metrics_ok (stepped done w1)
          /\ exists new,
              trace (stepped done w1) = trace w ++ new /\ EvWrite ∉ new) as Hquiet.
  { split; [|by exists new1]. destruct Hm1 as [[? ?] ?]. by repeat split. }
  assert (forall w2,
    for_each (_metrics (agent w1)) log_metric w1 = (Ok tt, w2) ->
    metrics_ok (stepped done (written w2))
    /\ exists new,
        trace (stepped done (written w2)) = trace w ++ new
        /\ EvWrite ∈ new
        /\ all_reset (_metrics (agent (stepped done (written w2))))
        /\ (0 < num_steps (agent w) ->
            EvScalar "update_count"
              (Fl (inject_Z (_update_count (agent (stepped done (written w2)))))) ∈ new))
    as Hloud.
  { intros w2 Hw2.
    rewrite (log_loop_exact (_metrics (agent w1)) [] w1 eq_refl) in Hw2
      by apply Hm1.
    injection Hw2 as <-. split.
    - pose proof (metrics_ok_write w1 Hm1) as [[? ?] ?]. by repeat split.
    - eexists. split; [simpl; rewrite Ht1, <- !app_assoc; reflexivity|].
      split; [|split].
      + rewrite !elem_of_app. right. right. by left.
      + simpl. unfold all_reset. by apply Forall_fmap, Forall_true.
      + intros Hn. simpl. rewrite !elem_of_app. right. left.
        apply range_nonempty in Hn. destruct (Hok eq_refl) as [_ Huc].
        apply Huc, dict_get_Some_elem_of in Hn.
        apply list_elem_of_fmap.
        by exists ("update_count"%string, AccInt (_update_count (agent w1))). }
  destruct (negb (pretrained (agent w1))) eqn:Hp; simpl.
  - destruct (for_each (_metrics (agent w1)) log_metric w1) as [r2 w2] eqn:Hl.
    destruct (log_loop_frame (_metrics (agent w1)) w1) as (? & ? & Hl' & _).
    rewrite Hl in Hl'. injection Hl' as -> <-.
    destruct (Hloud w2 eq_refl) as (Hm & new & Ht & Hw & Hr & Huc).
    split; [done|]. exists new. repeat split; try done.
    intros _. left. rewrite <- Hpre. by destruct (pretrained (agent w1)).
  - destruct (Z.eqb_spec (_log_every (agent w1)) 0) as [Hz|Hz]; simpl.
    { split; [done|]. exists new1. split; [done|].
      split; [intros Hin; by destruct (Hnw Hin)|]. by split. }
    destruct (Z.eqb_spec (_step (agent w1) mod _log_every (agent w1)) 0) as [Hc|Hc].
    + destruct (for_each (_metrics (agent w1)) log_metric w1) as [r2 w2] eqn:Hl.
      destruct (log_loop_frame (_metrics (agent w1)) w1) as (? & ? & Hl' & _).
      rewrite Hl in Hl'. injection Hl' as -> <-.
      destruct (Hloud w2 eq_refl) as (Hm & new & Ht & Hw & Hr & Huc).
      split; [done|]. exists new. repeat split; try done.
      intros _. right. by rewrite <- Hstep, <- Hlog.
    + destruct Hquiet as (Hm & new & Ht & Hw).
      split; [done|]. exists new. repeat split; try done.
      intros [Hf|Hmod].
      * rewrite <- Hpre in Hf. by rewrite Hf in Hp.
      * by rewrite <- Hstep, <- Hlog in Hmod.
Qed.

(** ** The policy call and the whole call *)

Local Abbreviation acts := (@policy_block Batch Post Obs PState Out DS Hidden policy).

Lemma policy_block_spec (obs : Obs) (state : option PState) (training : bool)
    (w : World) :
  let explore := _step (agent w) <? _expl_until (agent w) in
  let res := policy (models (agent w)) obs state training explore in
  acts obs state training w
  = (Ok res.2,
     {| agent := with_models res.1 (agent w);
        logger_step := logger_step w;
        trace := trace w ++ [EvPolicy training explore] |}).
Proof.
  intros explore res. subst res.
  unfold policy_block, bind, get_agent; simpl. fold explore.
  by destruct (policy (models (agent w)) obs state training explore).
Qed.

Lemma call_unfold (obs : Obs) (done : list bool) (state : option PState)
    (training : bool) (w : World) :
  call obs done state training w
  = if training then
      match block done w with
      | (Ok _, w1) => acts obs state training w1
      | (Raise e, w1) => (Raise e, w1)
      end
    else acts obs state training w.
Proof.
  unfold __call__, bind at 1. destruct training; [|done].
  by destruct (block done w) as [[[]|e] w1].
Qed.

Lemma metrics_ok_policy (w : World) (m : Models) (training explore : bool) :
  metrics_ok w ->
  metrics_ok
    {| agent := with_models m (agent w);
       logger_step := logger_step w;
       trace := trace w ++ [EvPolicy training explore] |}.
Proof.
  intros [[Hnd Htr] Hsc]. split; [split|]; simpl.
  - done.
  - intros name Hname. specialize (Htr name Hname). unfold tracks in *; simpl.
    by rewrite pending_snoc.
  - apply scalars_ok_app; [done|].
    intros [|e [|e' pre]] name v post Heq; discriminate.
Qed.

(** Every call keeps the accumulators in step with the trace. *)
Lemma call_metrics_ok (obs : Obs) (done : list bool) (state : option PState)
    (training : bool) (w : World) :
  metrics_ok w -> metrics_ok (call obs done state training w).2.
Proof.
  intros Hok. rewrite call_unfold. destruct training.
  - destruct (training_block_metrics done w Hok) as [Hb _].
    destruct (block done w) as [[[]|e] w1]; simpl in *; [|done].
    rewrite policy_block_spec; simpl. by apply metrics_ok_policy.
  - rewrite policy_block_spec; simpl. by apply metrics_ok_policy.
Qed.

Lemma startup_metrics_ok obs_space act_space config logger_step0 dataset
    checkpoint (w0 : World) :
  startup obs_space act_space config logger_step0 dataset checkpoint = Ok w0 ->
  metrics_ok w0.
Proof.
  unfold main_startup, __init__.
  destruct (py_floordiv _ (train_ratio config)) as [n|]; [|done].
  destruct (n =? 0); [done|].
  destruct (py_floordiv _ (action_repeat config)) as [st|]; [|done].
  intros [= <-]. split; [split|]; simpl.
  - destruct checkpoint; simpl; constructor.
  - intros name _. unfold tracks; simpl. by destruct checkpoint.
  - apply scalars_ok_nil.
Qed.

Lemma calls_metrics_ok (w0 w : World) :
  metrics_ok w0 ->
  rtc (call_step world_model_train actor_critic_train policy dataset_next) w0 w ->
  metrics_ok w.
Proof.
  intros H0 Hsteps. induction Hsteps as [|w1 w2 w3 Hstep _ IH]; [done|].
  apply IH. destruct Hstep as (obs & done & state & training & out & Hcall).
  pose proof (call_metrics_ok obs done state training w1 H0) as H.
  by rewrite Hcall in H.
Qed.

(** ** The order of the updates *)

(** C3: in every call, what the agent does with the dataset and the models
    before the policy call is a chain of training steps, each of them one
    batch pulled from the dataset, then [world_model.train] on that batch,
    then [actor_critic.train] on the posterior states that this very
    [world_model.train] returned, each on the models as the step before left
    them.  A call that trains and returns runs [range(num_steps)] steps, a
    call that raises at most that many, a call that does not train none. *)
Theorem train_step_is_pull_world_model_actor_critic
    (obs : Obs) (done : list bool) (state : option PState) (training : bool)
    (w : World) :
  let r := (call obs done state training w).1 in
  let w' := (call obs done state training w).2 in
  let n := if training then Z.to_nat (num_steps (agent w)) else 0%nat in
  exists k new m,
    trace w' = trace w ++ new
    /\ step_chain world_model_train actor_critic_train dataset_next k
         (models (agent w)) (_dataset (agent w))
         (filter (fun e => is_train_event e = true) new)
         m (_dataset (agent w'))
    /\ (k <= n)%nat
    /\ (is_ok r = true -> k = n).
Proof.
  intros r w' n. subst r w' n. rewrite call_unfold. destruct training.
  - destruct (training_block_steps done w)
      as (k & new & Ht & Hc & Hle & _ & _ & _ & _ & Hok).
    destruct (block done w) as [[[]|e] w1]; simpl in *.
    + rewrite policy_block_spec; simpl.
      exists k, (new ++ [EvPolicy true (_step (agent w1) <? _expl_until (agent w1))]),
        (models (agent w1)).
      rewrite Ht, <- app_assoc. split; [done|].
      rewrite filter_app, (filter_train_event_nil [_]), app_nil_r
        by (by repeat constructor).
      split; [done|]. split; [done|]. intros _. by apply Hok.
    + exists k, new, (models (agent w1)). by repeat split.
  - rewrite policy_block_spec; simpl.
    exists 0%nat, [EvPolicy false (_step (agent w) <? _expl_until (agent w))],
      (models (agent w)).
    repeat split; [|done]. rewrite filter_train_event_nil by (by repeat constructor).
    constructor.
Qed.

(** ** What the logger is told *)

(** C9, as the code has it: in any run of the agent from start-up, every
    scalar it reports under a name other than ["update_count"] is
    [np.mean] of the values recorded under that name since the write before
    (their arithmetic mean, [nan] if there are none); a call that writes
    leaves every accumulator empty; only training calls write, and one that
    returns has written exactly when the agent was not yet pretrained or the
    step counter was on the log cadence; and under ["update_count"] a call
    that ran at least one update reports the count itself. *)
Theorem scalars_are_means_since_last_write
    obs_space act_space config logger_step0 dataset checkpoint (w0 w : World)
    (obs : Obs) (done : list bool) (state : option PState) (training : bool) :
  startup obs_space act_space config logger_step0 dataset checkpoint = Ok w0 ->
  rtc (call_step world_model_train actor_critic_train policy dataset_next) w0 w ->
  let r := (call obs done state training w).1 in
  let w' := (call obs done state training w).2 in
  (forall pre name v post,
      trace w' = pre ++ EvScalar name v :: post ->
      name <> "update_count" ->
      v = np_mean (AccList (pending name pre)))
  /\ exists new,
      trace w' = trace w ++ new
      /\ (EvWrite ∈ new ->
          training = true /\ all_reset (_metrics (agent w')))
      /\ (training = true -> is_ok r = true ->
          (EvWrite ∈ new <->
           pretrained (agent w) = false
           \/ _step (agent w) mod _log_every (agent w) = 0))
      /\ (is_ok r = true -> EvWrite ∈ new -> 0 < num_steps (agent w) ->
          EvScalar "update_count" (Fl (inject_Z (_update_count (agent w')))) ∈ new).
Proof.
  intros Hstart Hsteps r w'. subst r w'.
  assert (metrics_ok w) as Hok
    by (eapply calls_metrics_ok; [by eapply startup_metrics_ok | done]).
  split; [apply (call_metrics_ok obs done state training w Hok)|].
  rewrite call_unfold. destruct training.
  - destruct (training_block_metrics done w Hok)
      as (_ & new & Ht & Hreset & Hwrite & Huc).
    destruct (block done w) as [[[]|e] w1]; simpl in *.
    + rewrite policy_block_spec; simpl.
      exists (new ++ [EvPolicy true (_step (agent w1) <? _expl_until (agent w1))]).
      rewrite Ht, <- app_assoc. split; [done|].
      assert (forall e, e ∈ new ++ [EvPolicy true (_step (agent w1) <? _expl_until (agent w1))]
                -> e <> EvPolicy true (_step (agent w1) <? _expl_until (agent w1))
                -> e ∈ new) as Hin.
      { intros e He Hne. apply elem_of_app in He as [He|He]; [done|].
        by apply list_elem_of_singleton in He. }
      split; [|split].
      * intros Hw. apply Hin in Hw; [|done]. split; [done | by apply Hreset].
      * intros _ _. rewrite <- (Hwrite eq_refl). split.
        -- intros Hw. by apply Hin.
        -- intros Hw. apply elem_of_app. by left.
      * intros _ Hw Hn. apply elem_of_app. left. apply Huc; [done | | done].
        by apply Hin.
    + exists new. split; [done|]. split; [|by split].
      intros Hw. split; [done | by apply Hreset].
  - rewrite policy_block_spec; simpl.
    exists [EvPolicy false (_step (agent w) <? _expl_until (agent w))].
    split; [done|]. split; [|split]; [| done |].
    + intros Hw. by apply list_elem_of_singleton in Hw.
    + intros _ Hw. by apply list_elem_of_singleton in Hw.
Qed.

(** ** Pretraining and checkpoints *)

Lemma n_updates_app (tr tr' : list (@Event Batch Post)) :
  n_updates (tr ++ tr') = (n_updates tr + n_updates tr')%nat.
Proof. unfold n_updates. by rewrite filter_app, length_app. Qed.

Lemma n_updates_filter (tr : list (@Event Batch Post)) :
  n_updates (filter (fun e => is_train_event e = true) tr) = n_updates tr.
Proof.
  unfold n_updates. induction tr as [|e tr IH]; [done|].
  destruct e; rewrite ?filter_cons; simpl; rewrite ?filter_cons; simpl;
    by rewrite IH.
Qed.

Lemma step_chain_updates k m ds tr m' ds' :
  step_chain world_model_train actor_critic_train dataset_next k m ds tr m' ds' ->
  n_updates tr = k.
Proof.
  induction 1 as [|k m ds data ds1 m1 post mets m2 mets' tr m3 ds3 _ _ _ _ IH];
    [done|].
  change (n_updates ([EvNext data; EvWorldTrain data post; EvActorTrain post] ++ tr)
          = S k).
  rewrite n_updates_app, IH. reflexivity.
Qed.

(** ** Calls that return *)

Lemma keys_dict_update {V} (d e : dict V) (k : string) :
  k ∈ keys (dict_update d e) -> k ∈ keys d \/ k ∈ keys e.
Proof.
  unfold dict_update. revert d. induction e as [|[k' v'] e IH]; intros d; simpl.
  - by left.
  - intros Hk. apply IH in Hk as [Hk|Hk].
    + rewrite keys_dict_set in Hk. destruct (dict_get k' d); [by left|].
      apply elem_of_app in Hk as [Hk|Hk]; [by left|].
      apply list_elem_of_singleton in Hk as ->. right. by left.
    + right. by right.
Qed.

(** Recording model metrics does not raise: what is kept under their names
    are lists. *)
Lemma record_loop_returns (metrics : dict Q) (w : World) :
  metrics_ok w ->
  "update_count" ∉ keys metrics ->
  (for_each metrics record_metric w).1 = Ok tt.
Proof.
  revert w. induction metrics as [|[k v] metrics IH]; intros w Hok Hk; simpl; [done|].
  apply not_elem_of_cons in Hk as [Hne Hk]. unfold bind.
  pose proof (record_metric_trains (k, v) w) as (_ & Hok1 & _).
  specialize (Hok1 Hok).
  assert ((record_metric (k, v) w).1 = Ok tt) as Hr.
  { unfold record_metric, bind, get_agent; simpl.
    destruct Hok as [[_ Htr] _]. specialize (Htr k (not_eq_sym Hne)).
    unfold tracks in Htr.
    by destruct (dict_get k (_metrics (agent w))) as [[l|n]|]. }
  destruct (record_metric (k, v) w) as [r w1]. simpl in Hr, Hok1. subst r.
  by apply IH.
Qed.

Local Abbreviation clean_names :=
  (no_update_count_metric world_model_train actor_critic_train).

Lemma train_round_returns (i : Z) (w : World) :
  clean_names -> metrics_ok w -> (round i w).1 = Ok tt.
Proof.
  intros [Hwm Hac] Hok.
  unfold train_round, next_dataset, _train, call_world_model_train,
    call_actor_critic_train, bind, get_agent; simpl.
  destruct (dataset_next (_dataset (agent w))) as [data ds1] eqn:Hds; simpl.
  specialize (Hwm (models (agent w)) data).
  destruct (world_model_train (models (agent w)) data) as [m1 [post mets]] eqn:Hw; simpl.
  specialize (Hac m1 post).
  destruct (actor_critic_train m1 post) as [m2 mets'] eqn:Ha; simpl.
  match goal with |- context [for_each ?l record_metric ?x] =>
    set (metrics := l); set (w1 := x) end.
  assert ((for_each metrics record_metric w1).1 = Ok tt) as Hr.
  { apply record_loop_returns.
    - apply (metrics_ok_quiet w w1
               [EvNext data; EvWorldTrain data post; EvActorTrain post]);
        [done | done | by simpl; rewrite <- !app_assoc | by repeat constructor].
    - intros Hin. subst metrics.
      apply keys_dict_update in Hin as [Hin|Hin]; [|done].
      apply keys_dict_update in Hin as [Hin|Hin]; [|done].
      by apply elem_of_nil in Hin. }
  destruct (for_each metrics record_metric w1) as [r w2]. simpl in Hr. by subst r.
Qed.

Lemma train_loop_returns (l : list Z) (w : World) :
  clean_names -> metrics_ok w -> (for_each l round w).1 = Ok tt.
Proof.
  intros Hclean. revert w. induction l as [|i l IH]; intros w Hok; simpl; [done|].
  unfold bind. pose proof (train_round_returns i w Hclean Hok) as Hr.
  destruct (train_round_trains i w) as [(_ & Hok1 & _) _].
  destruct (round i w) as [r w1]. simpl in *. subst r. by apply IH, Hok1.
Qed.

Lemma n_updates_scalars (new : list (@Event Batch Post)) :
  Forall (fun e => exists name v, e = EvScalar name v) new -> n_updates new = 0%nat.
Proof.
  induction 1 as [|e new (name & v & ->) _ IH]; [done|].
  change (n_updates ([EvScalar name v] ++ new) = 0%nat).
  by rewrite n_updates_app, IH.
Qed.

(** With such metric names the training block runs all its updates, and it
    returns unless the log cadence is zero when it is consulted. *)
Lemma training_block_returns (done : list bool) (w : World) :
  clean_names -> metrics_ok w ->
  (pretrained (agent w) = false \/ _log_every (agent w) <> 0 ->
   (block done w).1 = Ok tt)
  /\ exists new,
      trace (block done w).2 = trace w ++ new
      /\ n_updates new = Z.to_nat (num_steps (agent w)).
Proof.
  intros Hclean Hok. rewrite training_block_unfold.
  pose proof (train_loop_returns (range (num_steps (agent w))) w Hclean Hok) as Hr.
  destruct (train_loop_trains (range (num_steps (agent w))) w)
    as (k & Htr & _ & Hk).
  rewrite range_length in Hk.
  destruct (for_each (range (num_steps (agent w))) round w) as [r1 w1].
  simpl in Hr, Htr, Hk. subst r1. destruct (Hk eq_refl) as [-> _].
  destruct Htr as ((_ & Hlog & _ & _ & Hpre & _ & _) & _ & new1 & Ht1 & _ & Hc).
  apply step_chain_updates in Hc. rewrite n_updates_filter in Hc.
  rewrite should_log_spec; simpl. rewrite Hpre, Hlog.
  destruct (log_loop_frame (_metrics (agent w1)) w1)
    as (w2 & scal & Hl & _ & _ & Ht2 & Hsc).
  assert (n_updates (new1 ++ scal ++ [EvWrite]) = Z.to_nat (num_steps (agent w)))
    as Hloud.
  { rewrite !n_updates_app, Hc, (n_updates_scalars scal Hsc).
    unfold n_updates; simpl. lia. }
  destruct (pretrained (agent w)); simpl.
  - destruct (Z.eqb_spec (_log_every (agent w)) 0) as [Hz|Hz]; simpl.
    { split; [by intros [?|?]|]. by exists new1. }
    destruct (_step (agent w1) mod _log_every (agent w) =? 0); simpl.
    + rewrite Hl. split; [done|]. exists (new1 ++ scal ++ [EvWrite]). simpl.
      by rewrite Ht2, Ht1, <- !app_assoc.
    + split; [done|]. by exists new1.
  - rewrite Hl. split; [done|]. exists (new1 ++ scal ++ [EvWrite]). simpl.
    by rewrite Ht2, Ht1, <- !app_assoc.
Qed.

(** A call that trains and returns has run [range(num_steps)] updates and
    leaves the agent pretrained. *)
Lemma training_call_updates (obs : Obs) (done : list bool)
    (state : option PState) (w w' : World) out :
  call obs done state true w = (Ok out, w') ->
  pretrained (agent w') = true
  /\ exists new,
      trace w' = trace w ++ new
      /\ n_updates new = Z.to_nat (num_steps (agent w)).
Proof.
  rewrite call_unfold.
  destruct (training_block_steps done w)
    as (k & new & Ht & Hc & _ & _ & _ & _ & _ & Hok).
  destruct (block done w) as [[[]|e] w1]; simpl in *; [|done].
  rewrite policy_block_spec. intros [= _ <-]; simpl.
  destruct (Hok eq_refl) as (-> & Hp & _). split; [done|].
  exists (new ++ [EvPolicy true (_step (agent w1) <? _expl_until (agent w1))]).
  rewrite Ht, <- app_assoc. split; [done|].
  rewrite n_updates_app, <- n_updates_filter.
  rewrite (step_chain_updates _ _ _ _ _ _ Hc). simpl. unfold n_updates. simpl. lia.
Qed.

(** Calls that do not train change neither the flag nor the step counts. *)
Lemma eval_steps_keep (w0 w1 : World) :
  rtc (eval_step world_model_train actor_critic_train policy dataset_next) w0 w1 ->
  pretrained (agent w1) = pretrained (agent w0)
  /\ _num_train_steps (agent w1) = _num_train_steps (agent w0)
  /\ _config (agent w1) = _config (agent w0)
  /\ _log_every (agent w1) = _log_every (agent w0)
  /\ (metrics_ok w0 -> metrics_ok w1).
Proof.
  induction 1 as [|w0 w1 w2 (obs & dn & state & out & Hcall) _ IH]; [done|].
  pose proof (call_metrics_ok obs dn state false w0) as Hm.
  rewrite Hcall in Hm. simpl in Hm.
  rewrite call_unfold, policy_block_spec in Hcall. injection Hcall as _ <-.
  destruct IH as (? & ? & ? & ? & Hm').
  do 4 (split; [done|]). intros Hinv. by apply Hm', Hm.
Qed.

(** With metric names as above, a training call runs [range(num_steps)]
    updates, and returns unless the log cadence is zero when consulted. *)
Lemma training_call_returns (obs : Obs) (done : list bool)
    (state : option PState) (w : World) :
  clean_names -> metrics_ok w ->
  (pretrained (agent w) = false \/ _log_every (agent w) <> 0 ->
   is_ok (call obs done state true w).1 = true)
  /\ exists new,
      trace (call obs done state true w).2 = trace w ++ new
      /\ n_updates new = Z.to_nat (num_steps (agent w)).
Proof.
  intros Hclean Hok. rewrite call_unfold.
  destruct (training_block_returns done w Hclean Hok) as (Hret & new & Ht & Hn).
  destruct (block done w) as [[[]|e] w1]; simpl in *.
  - rewrite policy_block_spec; simpl. split; [done|].
    exists (new ++ [EvPolicy true (_step (agent w1) <? _expl_until (agent w1))]).
    rewrite Ht, <- app_assoc. split; [done|].
    rewrite n_updates_app, Hn. unfold n_updates; simpl. lia.
  - split; [|by exists new]. intros H. by specialize (Hret H).
Qed.

(** Once pretrained, always pretrained. *)
Lemma calls_stay_pretrained (w w' : World) :
  rtc (call_step world_model_train actor_critic_train policy dataset_next) w w' ->
  pretrained (agent w) = true -> pretrained (agent w') = true.
Proof.
  induction 1 as [|w1 w2 w3 (obs & dn & state & training & out & Hcall) _ IH];
    [done|].
  intros Hp. apply IH. destruct training.
  - by destruct (training_call_updates _ _ _ _ _ _ Hcall) as [? _].
  - rewrite call_unfold, policy_block_spec in Hcall. by injection Hcall as _ <-.
Qed.

(** C7: when [main] finds a checkpoint, every parameter of the agent that
    the checkpoint names holds the checkpoint's tensor and [pretrained] is
    set, so the first training call (whatever evaluation calls come before
    it) runs [_num_train_steps] updates; without a checkpoint [pretrained] is
    not set and the first training call runs [config.pretrain] updates and
    returns.  Once a training call has returned, the agent is pretrained in
    every call after it.  (The models' metrics are taken not to use the name
    ["update_count"]; the number of updates is the length of [range] of the
    count; with a checkpoint the call returns when [log_every] is not
    zero.) *)
Theorem checkpoint_skips_pretraining
    obs_space act_space config logger_step0 dataset checkpoint
    (w0 w1 : World) (obs : Obs) (done : list bool) (state : option PState) :
  clean_names ->
  startup obs_space act_space config logger_step0 dataset checkpoint = Ok w0 ->
  rtc (eval_step world_model_train actor_critic_train policy dataset_next) w0 w1 ->
  let r := (call obs done state true w1).1 in
  let w2 := (call obs done state true w1).2 in
  (exists new,
      trace w2 = trace w1 ++ new
      /\ match checkpoint with
         | Some file =>
             pretrained (agent w0) = true
             /\ (forall name t,
                   safe_load file !! name = Some t ->
                   name ∈ dom (get_state_dict (agent w0)) ->
                   get_state_dict (agent w0) !! name = Some t)
             /\ n_updates new = Z.to_nat (_num_train_steps (agent w0))
             /\ (log_every config <> 0 -> is_ok r = true)
         | None =>
             pretrained (agent w0) = false
             /\ n_updates new = Z.to_nat (pretrain config)
             /\ is_ok r = true
         end)
  /\ (is_ok r = true ->
      forall w3,
        rtc (call_step world_model_train actor_critic_train policy dataset_next) w2 w3 ->
        pretrained (agent w3) = true).
Proof.
  intros Hclean Hstart Hevals r w2. subst r w2.
  destruct (eval_steps_keep _ _ Hevals) as (Hp & Hnts & Hcfg & Hlog & Hm).
  specialize (Hm (startup_metrics_ok _ _ _ _ _ _ _ Hstart)).
  destruct (training_call_returns obs done state w1 Hclean Hm)
    as (Hret & new & Ht & Hn).
  split.
  2:{ intros Hok w3 Hcalls.
      destruct (call obs done state true w1) as [[out|e] w2] eqn:Hcall; [|done].
      destruct (training_call_updates _ _ _ _ _ _ Hcall) as [Hp2 _].
      by eapply calls_stay_pretrained. }
  exists new. split; [done|].
  unfold num_steps in Hn. rewrite Hp, Hnts, Hcfg in Hn. rewrite Hp, Hlog in Hret.
  unfold main_startup in Hstart.
  destruct (init obs_space act_space config logger_step0 dataset) as [a|] eqn:Hinit;
    [|done].
  injection Hstart as <-. simpl in *.
  assert (_config a = config /\ pretrained a = false
          /\ _log_every a = log_every config) as (Hca & Hpa & Hla).
  { unfold __init__ in Hinit.
    destruct (py_floordiv _ (train_ratio config)) as [n|]; [|done].
    destruct (n =? 0); [done|].
    destruct (py_floordiv _ (action_repeat config)) as [st|]; [|done].
    by injection Hinit as <-. }
  destruct checkpoint as [file|]; simpl in *.
  - split; [done|]. split; [|split; [done|]].
    + intros name t Hfile Hdom. unfold get_state_dict in *; simpl in *.
      apply elem_of_dom in Hdom as [t' Ht']. rewrite map_lookup_imap in Ht' |- *.
      destruct (params (models a) !! name) as [old|]; simpl in *; [|done].
      by rewrite Hfile.
    + intros Hz. apply Hret. right. by rewrite Hla.
  - split; [done|]. rewrite Hpa, Hca in Hn. split; [done|].
    apply Hret. by left.
Qed.



(** ** Calls that do not train *)

(** C10: a call with [training=False] leaves [_step], [_update_count],
    [_metrics], [pretrained], the logger's step counter and the dataset
    iterator as they were, and pulls no batch: it is the policy call alone,
    on the unchanged step counter, with [explore] set exactly when
    [_step < _expl_until]; its result is the policy's output and new state. *)
Theorem call_without_training_only_runs_policy
    (obs : Obs) (done : list bool) (state : option PState) (w : World) :
  let a := agent w in
  let explore := _step a <? _expl_until a in
  let res := policy (models a) obs state false explore in
  let w' := (call obs done state false w).2 in
  (call obs done state false w).1 = Ok res.2
  /\ _step (agent w') = _step a
  /\ _update_count (agent w') = _update_count a
  /\ _metrics (agent w') = _metrics a
  /\ pretrained (agent w') = pretrained a
  /\ logger_step w' = logger_step w
  /\ _dataset (agent w') = _dataset a
  /\ models (agent w') = res.1
  /\ trace w' = trace w ++ [EvPolicy false explore]
  /\ (explore = true <-> _step a < _expl_until a).
Proof.
  intros a explore res w'. subst w' res.
  unfold __call__, policy_block, bind, ret, get_agent; simpl.
  fold a. fold explore.
  destruct (policy (models a) obs state false explore) as [m out] eqn:Hp.
  simpl. repeat split; try reflexivity.
  - unfold explore. apply Z.ltb_lt.
  - unfold explore. apply Z.ltb_lt.
Qed.

(** ** Counting updates and batches *)

(** Recording metrics touches the accumulators and the trace, nothing
    else. *)
Lemma record_loop_frame (metrics : dict Q) (w : World) :
  agent (for_each metrics record_metric w).2
  = with_metrics (_metrics (agent (for_each metrics record_metric w).2)) (agent w).
Proof.
  revert w. induction metrics as [|kv metrics IH]; intros w; simpl.
  - by destruct (agent w).
  - unfold bind.
    assert (agent (record_metric kv w).2
            = with_metrics (_metrics (agent (record_metric kv w).2)) (agent w)) as Hf.
    { unfold record_metric, bind, get_agent; simpl.
      destruct (dict_get kv.1 (_metrics (agent w))) as [[l|n]|]; simpl;
        by destruct (agent w). }
    destruct (record_metric kv w) as [[[]|e] w1]; simpl in *; [|done].
    rewrite IH, Hf. reflexivity.
Qed.

(** A round that returns has counted one update. *)
Lemma train_round_counts (i : Z) (w : World) :
  (round i w).1 = Ok tt ->
  _update_count (agent (round i w).2) = _update_count (agent w) + 1.
Proof.
  unfold train_round, next_dataset, _train, call_world_model_train,
    call_actor_critic_train, bind, get_agent; simpl.
  destruct (dataset_next (_dataset (agent w))) as [data ds1]; simpl.
  destruct (world_model_train (models (agent w)) data) as [m1 [post mets]]; simpl.
  destruct (actor_critic_train m1 post) as [m2 mets']; simpl.
  match goal with |- context [for_each ?l record_metric ?x] =>
    pose proof (record_loop_frame l x) as Hf;
    destruct (for_each l record_metric x) as [[[]|e] w2] end; simpl in *; [|done].
  intros _. by rewrite Hf.
Qed.

Lemma train_loop_counts (l : list Z) (w : World) :
  (for_each l round w).1 = Ok tt ->
  _update_count (agent (for_each l round w).2)
  = _update_count (agent w) + Z.of_nat (length l).
Proof.
  revert w. induction l as [|i l IH]; intros w; simpl; [lia|].
  unfold bind. pose proof (train_round_counts i w) as H1.
  destruct (round i w) as [[[]|e] w1]; simpl in *; [|done].
  intros Hr. rewrite (IH w1 Hr), (H1 eq_refl). lia.
Qed.

Lemma training_block_counts (done : list bool) (w : World) :
  (block done w).1 = Ok tt ->
  _update_count (agent (block done w).2)
  = _update_count (agent w) + Z.of_nat (Z.to_nat (num_steps (agent w))).
Proof.
  rewrite training_block_unfold.
  pose proof (train_loop_counts (range (num_steps (agent w))) w) as Hc.
  rewrite range_length in Hc.
  destruct (for_each (range (num_steps (agent w))) round w) as [[[]|e] w1];
    simpl in *; [|done].
  specialize (Hc eq_refl).
  destruct ((should_log (agent w1) w1).1) as [[|]|e]; simpl; [| |done].
  - destruct (log_loop_frame (_metrics (agent w1)) w1) as (w2 & scal & -> & Ha & _).
    simpl. intros _. by rewrite Ha.
  - done.
Qed.

Lemma pulled_add (k1 k2 : nat) (ds : DS) :
  pulled dataset_next (k1 + k2) ds = pulled dataset_next k2 (pulled dataset_next k1 ds).
Proof.
  unfold pulled. rewrite Nat.add_comm. apply Nat.iter_add.
Qed.

Lemma step_chain_pulled k m ds tr m' ds' :
  step_chain world_model_train actor_critic_train dataset_next k m ds tr m' ds' ->
  ds' = pulled dataset_next k ds.
Proof.
  induction 1 as [|k m ds data ds1 m1 post mets m2 mets' tr m3 ds3 Hds _ _ _ IH];
    [done|].
  rewrite IH. change (S k) with (1 + k)%nat. rewrite pulled_add.
  unfold pulled at 3. simpl. by rewrite Hds.
Qed.

(** A call that returns: its updates, its count and the dataset agree. *)
Lemma call_counts (obs : Obs) (done : list bool) (state : option PState)
    (training : bool) (w w' : World) out :
  call obs done state training w = (Ok out, w') ->
  exists new,
    trace w' = trace w ++ new
    /\ _update_count (agent w') = _update_count (agent w) + Z.of_nat (n_updates new)
    /\ _dataset (agent w') = pulled dataset_next (n_updates new) (_dataset (agent w)).
Proof.
  rewrite call_unfold. destruct training.
  - destruct (training_block_steps done w)
      as (k & new & Ht & Hc & _ & _ & _ & _ & _ & Hok).
    pose proof (training_block_counts done w) as Hcnt.
    destruct (block done w) as [[[]|e] w1]; simpl in *; [|done].
    rewrite policy_block_spec. intros [= _ <-]; simpl.
    destruct (Hok eq_refl) as (-> & _).
    exists (new ++ [EvPolicy true (_step (agent w1) <? _expl_until (agent w1))]).
    rewrite Ht, <- app_assoc. split; [done|].
    assert (n_updates (new ++ [EvPolicy true (_step (agent w1) <? _expl_until (agent w1))])
            = Z.to_nat (num_steps (agent w))) as ->.
    { rewrite n_updates_app, <- n_updates_filter.
      rewrite (step_chain_updates _ _ _ _ _ _ Hc). unfold n_updates; simpl. lia. }
    split; [by apply Hcnt | by eapply step_chain_pulled].
  - rewrite policy_block_spec. intros [= _ <-]; simpl.
    exists [EvPolicy false (_step (agent w) <? _expl_until (agent w))].
    split; [done|]. split; [unfold n_updates; simpl; lia | done].
Qed.

(** X1: in every world reached from start-up by calls that returned, the
    agent's [_update_count] is the number of updates it has run, and the
    dataset iterator has been advanced exactly that many times: every update
    has its own batch, none is skipped and none is pulled without an
    update. *)
Theorem update_count_counts_updates
    obs_space act_space config logger_step0 dataset checkpoint (w0 w : World) :
  startup obs_space act_space config logger_step0 dataset checkpoint = Ok w0 ->
  rtc (call_step world_model_train actor_critic_train policy dataset_next) w0 w ->
  _update_count (agent w) = Z.of_nat (n_updates (trace w))
  /\ _dataset (agent w) = pulled dataset_next (n_updates (trace w)) dataset.
Proof.
  intros Hstart Hcalls.
  assert (_update_count (agent w0) = Z.of_nat (n_updates (trace w0))
          /\ _dataset (agent w0) = pulled dataset_next (n_updates (trace w0)) dataset)
    as H0.
  { unfold main_startup, __init__ in Hstart.
    destruct (py_floordiv _ (train_ratio config)) as [n|]; [|done].
    destruct (n =? 0); [done|].
    destruct (py_floordiv _ (action_repeat config)) as [st|]; [|done].
    injection Hstart as <-. by destruct checkpoint. }
  clear Hstart. induction Hcalls as [|w1 w2 w3 Hstep _ IH]; [done|].
  apply IH. destruct Hstep as (obs & dn & state & training & out & Hcall).
  destruct (call_counts _ _ _ _ _ _ _ Hcall) as (new & Ht & Hc & Hd).
  destruct H0 as [Hc0 Hd0].
  rewrite Ht, n_updates_app, Hc, Hd, Hc0, Hd0, pulled_add. split; [lia | done].
Qed.

(** ** Settings and step counters *)

(** No call, returning or raising, changes what the constructor derived
    from the configuration. *)
Lemma call_settings (obs : Obs) (done : list bool) (state : option PState)
    (training : bool) (w : World) :
  _config (agent (call obs done state training w).2) = _config (agent w)
  /\ _log_every (agent (call obs done state training w).2) = _log_every (agent w)
  /\ _num_train_steps (agent (call obs done state training w).2)
     = _num_train_steps (agent w)
  /\ _expl_until (agent (call obs done state training w).2) = _expl_until (agent w).
Proof.
  rewrite call_unfold. destruct training; [|by rewrite policy_block_spec].
  assert (_config (agent (block done w).2) = _config (agent w)
          /\ _log_every (agent (block done w).2) = _log_every (agent w)
          /\ _num_train_steps (agent (block done w).2) = _num_train_steps (agent w)
          /\ _expl_until (agent (block done w).2) = _expl_until (agent w)) as Hb.
  { rewrite training_block_unfold.
    destruct (train_loop_trains (range (num_steps (agent w))) w)
      as (k & ((Hc & Hl & Hn & He & _) & _) & _).
    destruct (for_each (range (num_steps (agent w))) round w) as [[[]|e] w1];
      simpl in *; [|done].
    destruct ((should_log (agent w1) w1).1) as [[|]|e]; simpl; [| |done].
    - destruct (log_loop_frame (_metrics (agent w1)) w1) as (w2 & scal & -> & Ha & _).
      simpl. by rewrite Ha.
    - done. }
  destruct (block done w) as [[[]|e] w1]; simpl in *; [|done].
  by rewrite policy_block_spec.
Qed.

(** A call that returns advances [_step] by [len(done)] when it trains, and
    then sets the logger's step to [action_repeat * _step]; otherwise it
    leaves both alone. *)
Lemma call_steps (obs : Obs) (done : list bool) (state : option PState)
    (training : bool) (w w' : World) out :
  call obs done state training w = (Ok out, w') ->
  if training then
    _step (agent w') = _step (agent w) + Z.of_nat (length done)
    /\ logger_step w' = action_repeat (_config (agent w)) * _step (agent w')
  else _step (agent w') = _step (agent w) /\ logger_step w' = logger_step w.
Proof.
  rewrite call_unfold. destruct training.
  - destruct (training_block_steps done w) as (k & new & _ & _ & _ & _ & _ & _ & _ & Hok).
    destruct (block done w) as [[[]|e] w1]; simpl in *; [|done].
    rewrite policy_block_spec. intros [= _ <-]; simpl.
    by destruct (Hok eq_refl) as (_ & _ & ? & ?).
  - rewrite policy_block_spec. by intros [= _ <-].
Qed.

Lemma startup_settings obs_space act_space config logger_step0 dataset
    checkpoint (w0 : World) :
  startup obs_space act_space config logger_step0 dataset checkpoint = Ok w0 ->
  action_repeat config <> 0
  /\ train_ratio config <> 0
  /\ _config (agent w0) = config
  /\ _log_every (agent w0) = log_every config
  /\ _num_train_steps (agent w0)
     = batch_size config * batch_length config / train_ratio config
  /\ _num_train_steps (agent w0) <> 0
  /\ _expl_until (agent w0) = expl_until config
  /\ _step (agent w0) = logger_step0 / action_repeat config
  /\ logger_step w0 = logger_step0.
Proof.
  unfold main_startup, __init__, py_floordiv.
  destruct (Z.eqb_spec (train_ratio config) 0) as [|Hr]; [done|].
  destruct (Z.eqb_spec (batch_size config * batch_length config / train_ratio config) 0)
    as [|Hn]; [done|].
  destruct (Z.eqb_spec (action_repeat config) 0) as [|Ha]; [done|].
  intros [= <-]. by destruct checkpoint.
Qed.

(** X2: the agent's step counter and the logger's stay in step.  In every
    world reached from start-up by calls that returned, [_step] is the
    logger's step floor-divided by [action_repeat] (which is not zero), and
    [_step] has not gone down. *)
Theorem step_is_logger_step_over_action_repeat
    obs_space act_space config logger_step0 dataset checkpoint (w0 w : World) :
  startup obs_space act_space config logger_step0 dataset checkpoint = Ok w0 ->
  rtc (call_step world_model_train actor_critic_train policy dataset_next) w0 w ->
  action_repeat config <> 0
  /\ _step (agent w) = logger_step w / action_repeat config
  /\ _step (agent w0) <= _step (agent w).
Proof.
  intros Hstart Hcalls.
  destruct (startup_settings _ _ _ _ _ _ _ Hstart)
    as (Ha & _ & Hc & _ & _ & _ & _ & Hs & Hl).
  split; [done|].
  assert (_config (agent w0) = config
          /\ _step (agent w0) = logger_step w0 / action_repeat config) as H0
    by (by rewrite Hl).
  clear Hstart Hc Hs Hl.
  assert (_config (agent w) = config
          /\ _step (agent w) = logger_step w / action_repeat config
          /\ _step (agent w0) <= _step (agent w)) as (_ & ? & ?); [|done].
  induction Hcalls as [|w1 w2 w3 Hstep _ IH]; [by destruct H0; repeat split; try lia|].
  destruct Hstep as (obs & dn & state & training & out & Hcall).
  destruct H0 as [Hc Hs].
  pose proof (call_settings obs dn state training w1) as (Hc2 & _).
  pose proof (call_steps _ _ _ _ _ _ _ Hcall) as Hst.
  rewrite Hcall in Hc2. simpl in Hc2.
  destruct IH as (Hc3 & Hs3 & Hle).
  { split; [congruence|]. destruct training.
    - destruct Hst as [_ ->]. rewrite Hc, Z.mul_comm. by rewrite Z.div_mul.
    - destruct Hst as [-> ->]. done. }
  split; [done|]. split; [done|].
  destruct training; destruct Hst as [Hst _]; lia.
Qed.

(** X3: what the constructor derives from the configuration is never
    changed afterwards: in every world reached from start-up by calls that
    returned, [_config] is the configuration, [_log_every] and
    [_expl_until] are its fields, and [_num_train_steps] is
    [batch_size * batch_length // train_ratio], which is not zero. *)
Theorem settings_are_fixed_at_construction
    obs_space act_space config logger_step0 dataset checkpoint (w0 w : World) :
  startup obs_space act_space config logger_step0 dataset checkpoint = Ok w0 ->
  rtc (call_step world_model_train actor_critic_train policy dataset_next) w0 w ->
  _config (agent w) = config
  /\ _log_every (agent w) = log_every config
  /\ _expl_until (agent w) = expl_until config
  /\ _num_train_steps (agent w)
     = batch_size config * batch_length config / train_ratio config
  /\ _num_train_steps (agent w) <> 0.
Proof.
  intros Hstart Hcalls.
  destruct (startup_settings _ _ _ _ _ _ _ Hstart)
    as (_ & _ & Hc & Hl & Hn & Hnz & He & _).
  rewrite <- Hn, <- Hc in *. rewrite <- Hl, <- He. clear Hstart Hn Hc Hl He.
  induction Hcalls as [|w1 w2 w3 Hstep _ IH]; [done|].
  destruct Hstep as (obs & dn & state & training & out & Hcall).
  pose proof (call_settings obs dn state training w1) as (Hc & Hl & Hn & He).
  rewrite Hcall in Hc, Hl, Hn, He. simpl in *.
  rewrite <- Hc, <- Hl, <- Hn, <- He. apply IH. by rewrite Hn.
Qed.

(** ** The events of a call *)

Lemma scalar_names_app (tr tr' : list (@Event Batch Post)) :
  scalar_names (tr ++ tr') = scalar_names tr ++ scalar_names tr'.
Proof. unfold scalar_names. apply omap_app. Qed.

Lemma scalar_names_training (tr : list (@Event Batch Post)) :
  Forall (fun e => is_training_kind e = true) tr -> scalar_names tr = [].
Proof.
  induction 1 as [|e tr He _ IH]; [done|].
  change (scalar_names ([e] ++ tr) = []). rewrite scalar_names_app, IH.
  by destruct e.
Qed.

Lemma scalar_names_log (d : dict acc) :
  scalar_names (map (fun kv => @EvScalar Batch Post kv.1 (np_mean kv.2)) d) = keys d.
Proof.
  induction d as [|kv d IH]; [done|].
  change (scalar_names ([EvScalar kv.1 (np_mean kv.2)]
                        ++ map (fun kv => @EvScalar Batch Post kv.1 (np_mean kv.2)) d)
          = kv.1 :: keys d).
  by rewrite scalar_names_app, IH.
Qed.

(** What the training block emits: events of the training loop, then, if it
    logs, one scalar per entry of [_metrics] and the write. *)
Lemma training_block_events (done : list bool) (w : World) :
  exists new1 scal wr,
    trace (block done w).2 = trace w ++ new1 ++ scal ++ wr
    /\ Forall (fun e => is_training_kind e = true) new1
    /\ Forall (fun e => exists name v, e = EvScalar name v) scal
    /\ (wr = [] /\ scal = [] \/ wr = [EvWrite])
    /\ (metrics_ok w -> NoDup (scalar_names scal)).
Proof.
  rewrite training_block_unfold.
  destruct (train_loop_trains (range (num_steps (agent w))) w)
    as (k & (_ & Hm & new1 & Ht1 & Hk1 & _) & _).
  destruct (for_each (range (num_steps (agent w))) round w) as [r1 w1].
  simpl in Hm, Ht1.
  assert (exists new1 scal wr,
    trace w1 = trace w ++ new1 ++ scal ++ wr
    /\ Forall (fun e => is_training_kind e = true) new1
    /\ Forall (fun e => exists name v, e = EvScalar name v) scal
    /\ (wr = [] /\ scal = [] \/ wr = [@EvWrite Batch Post])
    /\ (metrics_ok w -> NoDup (scalar_names scal))) as Hquiet.
  { exists new1, [], []. rewrite !app_nil_r.
    repeat split; [done | done | constructor | by left | intros _; constructor]. }
  destruct r1 as [[]|e]; simpl; [|done].
  destruct ((should_log (agent w1) w1).1) as [[|]|e]; simpl; [| done | done].
  destruct (log_loop_frame (_metrics (agent w1)) w1)
    as (w2 & scal & Hl & _ & _ & Ht2 & Hsc).
  rewrite Hl. simpl. exists new1, scal, [EvWrite].
  rewrite Ht2, Ht1, <- !app_assoc. split; [done|]. split; [done|].
  split; [done|]. split; [by right|].
  intros Hok. specialize (Hm Hok).
  rewrite (log_loop_exact (_metrics (agent w1)) [] w1 eq_refl) in Hl by apply Hm.
  injection Hl as <-. simpl in Ht2. apply app_inv_head in Ht2 as <-.
  rewrite scalar_names_log. apply Hm.
Qed.

(** What a call emits: the training block's events, none of them a policy
    call, and then, if nothing was raised, the one policy call. *)
Lemma call_events (obs : Obs) (done : list bool) (state : option PState)
    (training : bool) (w : World) :
  exists body,
    Forall (fun e => is_policy e = false) body
    /\ (metrics_ok w -> NoDup (scalar_names body))
    /\ trace (call obs done state training w).2
       = trace w ++ body
         ++ match (call obs done state training w).1 with
            | Ok _ =>
                [EvPolicy training
                   (_step (agent (call obs done state training w).2)
                    <? _expl_until (agent (call obs done state training w).2))]
            | Raise _ => []
            end.
Proof.
  rewrite call_unfold. destruct training.
  - destruct (training_block_events done w)
      as (new1 & scal & wr & Ht & Hk & Hsc & Hwr & Hnd).
    exists (new1 ++ scal ++ wr). split; [|split].
    + rewrite !Forall_app. split; [|split].
      * eapply Forall_impl; [exact Hk|]. by intros [].
      * eapply Forall_impl; [exact Hsc|]. by intros e (? & ? & ->).
      * destruct Hwr as [[-> _]| ->]; by repeat constructor.
    + intros Hok. rewrite !scalar_names_app, (scalar_names_training new1 Hk).
      simpl. destruct Hwr as [[-> _]| ->]; simpl; rewrite app_nil_r; by apply Hnd.
    + destruct (block done w) as [[[]|e] w1]; simpl in *.
      * rewrite policy_block_spec; simpl. by rewrite Ht, <- !app_assoc.
      * by rewrite Ht, !app_nil_r.
  - exists []. split; [constructor|]. split; [intros _; constructor|].
    by rewrite policy_block_spec.
Qed.

(** X4: in a call that returns the policy is called exactly once, as the
    call's last act, after everything the training block does, and with
    [explore] set exactly when the step counter the call ends with is below
    [_expl_until]. *)
Theorem policy_is_called_once_and_last
    (obs : Obs) (done : list bool) (state : option PState) (training : bool)
    (w w' : World) out :
  call obs done state training w = (Ok out, w') ->
  exists body,
    Forall (fun e => is_policy e = false) body
    /\ trace w' = trace w ++ body
                 ++ [EvPolicy training (_step (agent w') <? _expl_until (agent w'))].
Proof.
  intros Hcall.
  destruct (call_events obs done state training w) as (body & Hb & _ & Ht).
  rewrite Hcall in Ht. by exists body.
Qed.

(** X5: in a run from start-up no metric name is reported twice within one
    call: the names of the scalars a call reports are pairwise distinct. *)
Theorem each_metric_reported_once_per_call
    obs_space act_space config logger_step0 dataset checkpoint (w0 w : World)
    (obs : Obs) (done : list bool) (state : option PState) (training : bool) :
  startup obs_space act_space config logger_step0 dataset checkpoint = Ok w0 ->
  rtc (call_step world_model_train actor_critic_train policy dataset_next) w0 w ->
  exists new,
    trace (call obs done state training w).2 = trace w ++ new
    /\ NoDup (scalar_names new).
Proof.
  intros Hstart Hcalls.
  assert (metrics_ok w) as Hok
    by (eapply calls_metrics_ok; [by eapply startup_metrics_ok | done]).
  destruct (call_events obs done state training w) as (body & _ & Hnd & Ht).
  eexists. split; [exact Ht|].
  rewrite scalar_names_app.
  destruct ((call obs done state training w).1); simpl; rewrite app_nil_r; by apply Hnd.
Qed.

(** X6: in every world reached from start-up by calls that returned, the
    accumulator kept under a metric name other than ["update_count"] is a
    list holding exactly the values recorded under that name since the last
    write, in order; a name without an accumulator has nothing pending. *)
Theorem accumulators_hold_pending_values
    obs_space act_space config logger_step0 dataset checkpoint (w0 w : World)
    (name : string) :
  startup obs_space act_space config logger_step0 dataset checkpoint = Ok w0 ->
  rtc (call_step world_model_train actor_critic_train policy dataset_next) w0 w ->
  name <> "update_count" ->
  match dict_get name (_metrics (agent w)) with
  | Some (AccList l) => l = pending name (trace w)
  | Some (AccInt _) => False
  | None => pending name (trace w) = []
  end.
Proof.
  intros Hstart Hcalls Hname.
  assert (metrics_ok w) as [[_ Htr] _]
    by (eapply calls_metrics_ok; [by eapply startup_metrics_ok | done]).
  exact (Htr name Hname).
Qed.

(** ** Exploration *)

Lemma calls_keep_settings (w0 w : World) :
  rtc (call_step world_model_train actor_critic_train policy dataset_next) w0 w ->
  _config (agent w) = _config (agent w0)
  /\ _log_every (agent w) = _log_every (agent w0)
  /\ _num_train_steps (agent w) = _num_train_steps (agent w0)
  /\ _expl_until (agent w) = _expl_until (agent w0).
Proof.
  induction 1 as [|w1 w2 w3 (obs & dn & state & training & out & Hcall) _ IH];
    [done|].
  pose proof (call_settings obs dn state training w1) as (Hc & Hl & Hn & He).
  rewrite Hcall in Hc, Hl, Hn, He. simpl in *.
  destruct IH as (? & ? & ? & ?). repeat split; congruence.
Qed.

(** Once a policy call has been made without exploration, the step counter
    has reached [_expl_until]. *)
Lemma calls_explored_out (w0 w : World) :
  (forall t, EvPolicy t false ∈ trace w0 ->
     _expl_until (agent w0) <= _step (agent w0)) ->
  rtc (call_step world_model_train actor_critic_train policy dataset_next) w0 w ->
  forall t, EvPolicy t false ∈ trace w -> _expl_until (agent w) <= _step (agent w).
Proof.
  intros H0 Hcalls. induction Hcalls as [|w1 w2 w3 Hstep _ IH]; [done|].
  apply IH. destruct Hstep as (obs & dn & state & training & out & Hcall).
  destruct (call_events obs dn state training w1) as (body & Hb & _ & Ht).
  pose proof (call_settings obs dn state training w1) as (_ & _ & _ & He).
  pose proof (call_steps _ _ _ _ _ _ _ Hcall) as Hst.
  rewrite Hcall in Ht, He. simpl in Ht, He.
  assert (_step (agent w1) <= _step (agent w2)) as Hle
    by (destruct training; destruct Hst as [Hst _]; lia).
  intros t Hin. rewrite Ht in Hin.
  apply elem_of_app in Hin as [Hin|Hin]; [specialize (H0 t Hin); lia|].
  apply elem_of_app in Hin as [Hin|Hin].
  - rewrite Forall_forall in Hb. by specialize (Hb _ Hin).
  - apply list_elem_of_singleton in Hin. injection Hin as _ Hex.
    symmetry in Hex. apply Z.ltb_ge in Hex. lia.
Qed.

(** X7: exploration never resumes.  In a run from start-up, once some
    policy call has been made with [explore = False], every later call that
    returns makes its policy call with [explore = False] too. *)
Theorem exploration_never_resumes
    obs_space act_space config logger_step0 dataset checkpoint (w0 w w' : World)
    (t : bool) (obs : Obs) (done : list bool) (state : option PState)
    (training : bool) out :
  startup obs_space act_space config logger_step0 dataset checkpoint = Ok w0 ->
  rtc (call_step world_model_train actor_critic_train policy dataset_next) w0 w ->
  EvPolicy t false ∈ trace w ->
  call obs done state training w = (Ok out, w') ->
  exists body,
    Forall (fun e => is_policy e = false) body
    /\ trace w' = trace w ++ body ++ [EvPolicy training false].
Proof.
  intros Hstart Hcalls Hin Hcall.
  assert (_expl_until (agent w) <= _step (agent w)) as Hout.
  { apply (calls_explored_out w0 w) with (t := t); [|done|done].
    intros t' Hin'. unfold main_startup in Hstart.
    destruct (init obs_space act_space config logger_step0 dataset); [|done].
    injection Hstart as <-. by apply elem_of_nil in Hin'. }
  destruct (call_events obs done state training w) as (body & Hb & _ & Ht).
  pose proof (call_settings obs done state training w) as (_ & _ & _ & He).
  pose proof (call_steps _ _ _ _ _ _ _ Hcall) as Hst.
  rewrite Hcall in Ht, He. simpl in Ht, He.
  exists body. split; [done|]. rewrite Ht.
  assert ((_step (agent w') <? _expl_until (agent w')) = false) as ->; [|done].
  apply Z.ltb_ge. destruct training; destruct Hst as [Hst _]; lia.
Qed.

(** ** Errors of the training call *)

(** X8: a log cadence below the action repeat stops training.  [main]
    floor-divides [log_every] by [action_repeat]; when [0 <= log_every <
    action_repeat] the agent's cadence is zero, and then every training call
    on a pretrained agent raises [ZeroDivisionError] at [self._step %
    self._log_every]: after all its updates have run, without a write,
    without the policy call, and with [_step] and the logger's step left as
    they were.  (The models' metrics are taken not to use the name
    ["update_count"].) *)
Theorem zero_log_cadence_raises
    obs_space act_space config config' logger_step0 dataset checkpoint
    (w0 w : World) (obs : Obs) (done : list bool) (state : option PState) :
  clean_names ->
  main_scale_config config = Ok config' ->
  0 <= log_every config < action_repeat config ->
  startup obs_space act_space config' logger_step0 dataset checkpoint = Ok w0 ->
  rtc (call_step world_model_train actor_critic_train policy dataset_next) w0 w ->
  pretrained (agent w) = true ->
  let r := (call obs done state true w).1 in
  let w' := (call obs done state true w).2 in
  r = Raise ZeroDivisionError
  /\ _step (agent w') = _step (agent w)
  /\ logger_step w' = logger_step w
  /\ exists new,
      trace w' = trace w ++ new
      /\ Forall (fun e => is_training_kind e = true) new
      /\ n_updates new = Z.to_nat (_num_train_steps (agent w)).
Proof.
  intros Hclean Hscale Hsmall Hstart Hcalls Hpre r w'. subst r w'.
  assert (metrics_ok w) as Hok
    by (eapply calls_metrics_ok; [by eapply startup_metrics_ok | done]).
  assert (_log_every (agent w) = 0) as Hzero.
  { destruct (calls_keep_settings _ _ Hcalls) as (_ & -> & _).
    destruct (startup_settings _ _ _ _ _ _ _ Hstart) as (_ & _ & _ & -> & _).
    unfold main_scale_config, py_floordiv in Hscale.
    destruct (action_repeat config =? 0); [done|].
    injection Hscale as <-. simpl. apply Z.div_small. lia. }
  rewrite call_unfold, training_block_unfold.
  pose proof (train_loop_returns (range (num_steps (agent w))) w Hclean Hok) as Hr.
  destruct (train_loop_trains (range (num_steps (agent w))) w)
    as (k & Htr & _ & Hk).
  rewrite range_length in Hk.
  destruct (for_each (range (num_steps (agent w))) round w) as [r1 w1].
  simpl in Hr, Htr, Hk. subst r1. destruct (Hk eq_refl) as [-> _].
  destruct Htr as ((_ & Hlog & _ & _ & Hp & Hst & Hls) & _ & new1 & Ht1 & Hk1 & Hc).
  apply step_chain_updates in Hc. rewrite n_updates_filter in Hc.
  rewrite should_log_spec; simpl. rewrite Hp, Hlog, Hpre, Hzero. simpl.
  split; [done|]. split; [done|]. split; [done|].
  exists new1. split; [done|]. split; [done|].
  rewrite Hc. unfold num_steps. by rewrite Hpre.
Qed.

Lemma keys_dict_update_l {V} (d e : dict V) (k : string) :
  k ∈ keys d -> k ∈ keys (dict_update d e).
Proof.
  unfold dict_update. revert d. induction e as [|[k' v'] e IH]; intros d Hk; [done|].
  simpl. apply IH. rewrite keys_dict_set.
  destruct (dict_get k' d); [done|]. apply elem_of_app. by left.
Qed.

Lemma keys_dict_update_r {V} (d e : dict V) (k : string) :
  k ∈ keys e -> k ∈ keys (dict_update d e).
Proof.
  unfold dict_update. revert d. induction e as [|[k' v'] e IH]; intros d Hk.
  - by apply elem_of_nil in Hk.
  - simpl. apply elem_of_cons in Hk as [->|Hk]; [|by apply IH].
    apply (keys_dict_update_l (dict_set k' v' d) e).
    rewrite keys_dict_set. destruct (dict_get k' d) as [v0|] eqn:Hget.
    + apply dict_get_Some_elem_of in Hget.
      apply list_elem_of_fmap. by exists (k', v0).
    + apply elem_of_app. right. by left.
Qed.

(** An int under ["update_count"] and a model metric of that name: the
    recording loop raises when it comes to it. *)
Lemma record_loop_raises (metrics : dict Q) (w : World) (n : Z) :
  metrics_ok w ->
  dict_get "update_count" (_metrics (agent w)) = Some (AccInt n) ->
  "update_count" ∈ keys metrics ->
  (for_each metrics record_metric w).1 = Raise AttributeError.
Proof.
  revert w. induction metrics as [|[k v] metrics IH]; intros w Hok Hint Hin; simpl.
  - by apply elem_of_nil in Hin.
  - unfold bind. destruct (String.eqb_spec k "update_count") as [->|Hne].
    + unfold record_metric at 1, bind, get_agent; simpl. by rewrite Hint.
    + apply elem_of_cons in Hin as [Hin|Hin]; [done|].
      pose proof (record_metric_trains (k, v) w) as (_ & Hok1 & _).
      specialize (Hok1 Hok).
      assert ((record_metric (k, v) w).1 = Ok tt
              /\ dict_get "update_count" (_metrics (agent (record_metric (k, v) w).2))
                 = Some (AccInt n)) as [Hr Hint1].
      { unfold record_metric, bind, get_agent; simpl.
        destruct Hok as [[_ Htr] _]. specialize (Htr k Hne). unfold tracks in Htr.
        destruct (dict_get k (_metrics (agent w))) as [[l|n']|]; simpl; [|done|];
          by rewrite dict_get_set_ne. }
      destruct (record_metric (k, v) w) as [r w1]. simpl in *. subst r.
      by apply IH.
Qed.

Lemma round_raises_attribute_error_only (i : Z) (w : World) :
  (round i w).1 = Ok tt \/ (round i w).1 = Raise AttributeError.
Proof.
  unfold train_round, next_dataset, _train, call_world_model_train,
    call_actor_critic_train, bind, get_agent; simpl.
  destruct (dataset_next (_dataset (agent w))) as [data ds1]; simpl.
  destruct (world_model_train (models (agent w)) data) as [m1 [post mets]]; simpl.
  destruct (actor_critic_train m1 post) as [m2 mets']; simpl.
  match goal with |- context [for_each ?l record_metric ?x] =>
    generalize l x end.
  intros metrics w1.
  assert ((for_each metrics record_metric w1).1 = Ok tt
          \/ (for_each metrics record_metric w1).1 = Raise AttributeError) as Hr.
  { revert w1. induction metrics as [|kv metrics IH]; intros w1; simpl; [by left|].
    unfold bind.
    assert ((record_metric kv w1).1 = Ok tt
            \/ (record_metric kv w1).1 = Raise AttributeError) as Hk.
    { unfold record_metric, bind, get_agent; simpl.
      destruct (dict_get kv.1 (_metrics (agent w1))) as [[l|n]|]; simpl; auto. }
    destruct (record_metric kv w1) as [[[]|e] w2]; simpl in *; [apply IH|].
    destruct Hk as [?|Hk]; [done | by right]. }
  destruct (for_each metrics record_metric w1) as [[[]|e] w2]; simpl in *; [by left|].
  destruct Hr as [?|Hr]; [done | by right].
Qed.

Lemma round_raises_on_name_clash (i : Z) (w : World) (n : Z) :
  (forall m data, "update_count" ∈ keys (world_model_train m data).2.2) ->
  metrics_ok w ->
  dict_get "update_count" (_metrics (agent w)) = Some (AccInt n) ->
  (round i w).1 = Raise AttributeError.
Proof.
  intros Hwm Hok Hint.
  unfold train_round, next_dataset, _train, call_world_model_train,
    call_actor_critic_train, bind, get_agent; simpl.
  destruct (dataset_next (_dataset (agent w))) as [data ds1] eqn:Hds; simpl.
  specialize (Hwm (models (agent w)) data).
  destruct (world_model_train (models (agent w)) data) as [m1 [post mets]] eqn:Hw; simpl.
  destruct (actor_critic_train m1 post) as [m2 mets'] eqn:Ha; simpl.
  match goal with |- context [for_each ?l record_metric ?x] =>
    set (metrics := l); set (w1 := x) end.
  assert ((for_each metrics record_metric w1).1 = Raise AttributeError) as Hr.
  { apply (record_loop_raises metrics w1 n).
    - apply (metrics_ok_quiet w w1
               [EvNext data; EvWorldTrain data post; EvActorTrain post]);
        [done | done | by simpl; rewrite <- !app_assoc | by repeat constructor].
    - done.
    - subst metrics. apply keys_dict_update_l, keys_dict_update_r. exact Hwm. }
  destruct (for_each metrics record_metric w1) as [r w2]. simpl in Hr. by subst r.
Qed.

Lemma loop_raises_on_name_clash (l : list Z) (w : World) :
  (forall m data, "update_count" ∈ keys (world_model_train m data).2.2) ->
  metrics_ok w ->
  (2 <= length l)%nat ->
  (for_each l round w).1 = Raise AttributeError.
Proof.
  intros Hwm Hok Hlen. destruct l as [|i [|j l]]; simpl in Hlen; [lia | lia|].
  simpl. unfold bind at 1.
  destruct (round_raises_attribute_error_only i w) as [Hr|Hr];
    destruct (train_round_trains i w) as [(_ & Hok1 & _) Huc];
    destruct (round i w) as [r w1]; simpl in *; subst r; [|done].
  unfold bind at 1.
  pose proof (round_raises_on_name_clash j w1 _ Hwm (Hok1 Hok) (Huc eq_refl)) as Hr.
  destruct (round j w1) as [r w2]. simpl in Hr. by subst r.
Qed.

(** X9: a model metric named ["update_count"] stops training.  If the world
    model reports a metric of that name, a training call that is to run two
    or more updates raises [AttributeError]: the agent keeps its bare update
    count under the same name, and the next value cannot be appended to
    it.  Nothing is written, the policy is not called, and [_step],
    [pretrained] and the logger's step are left as they were. *)
Theorem metric_named_update_count_raises
    obs_space act_space config logger_step0 dataset checkpoint (w0 w : World)
    (obs : Obs) (done : list bool) (state : option PState) :
  (forall m data, "update_count" ∈ keys (world_model_train m data).2.2) ->
  startup obs_space act_space config logger_step0 dataset checkpoint = Ok w0 ->
  rtc (call_step world_model_train actor_critic_train policy dataset_next) w0 w ->
  2 <= num_steps (agent w) ->
  let r := (call obs done state true w).1 in
  let w' := (call obs done state true w).2 in
  r = Raise AttributeError
  /\ _step (agent w') = _step (agent w)
  /\ pretrained (agent w') = pretrained (agent w)
  /\ logger_step w' = logger_step w
  /\ exists new,
      trace w' = trace w ++ new
      /\ Forall (fun e => is_training_kind e = true) new.
Proof.
  intros Hwm Hstart Hcalls Hn r w'. subst r w'.
  assert (metrics_ok w) as Hok
    by (eapply calls_metrics_ok; [by eapply startup_metrics_ok | done]).
  rewrite call_unfold, training_block_unfold.
  pose proof (loop_raises_on_name_clash (range (num_steps (agent w))) w Hwm Hok) as Hr.
  rewrite range_length in Hr.
  destruct (train_loop_trains (range (num_steps (agent w))) w)
    as (k & ((_ & _ & _ & _ & Hp & Hst & Hls) & _ & new1 & Ht1 & Hk1 & _) & _).
  destruct (for_each (range (num_steps (agent w))) round w) as [r1 w1].
  simpl in *. rewrite Hr by lia. simpl.
  do 4 (split; [done|]). by exists new1.
Qed.

(** ** Calls that have nothing to train *)

Lemma range_nonpositive (n : Z) : n <= 0 -> range n = [].
Proof. intros Hn. unfold range. by replace (Z.to_nat n) with 0%nat by lia. Qed.

Lemma step_chain_0 m ds tr m' ds' :
  step_chain world_model_train actor_critic_train dataset_next 0 m ds tr m' ds' ->
  tr = [] /\ m' = m /\ ds' = ds.
Proof. by inversion 1. Qed.

(** X10: a negative train-step count, which the constructor accepts, means
    that the agent never updates again once it is pretrained: such a call
    pulls no batch and calls neither [world_model.train] nor
    [actor_critic.train], and when it returns [_update_count] is unchanged
    while [_step] has advanced by [len(done)] all the same. *)
Theorem negative_train_steps_never_update
    obs_space act_space config logger_step0 dataset checkpoint (w0 w : World)
    (obs : Obs) (done : list bool) (state : option PState) :
  startup obs_space act_space config logger_step0 dataset checkpoint = Ok w0 ->
  rtc (call_step world_model_train actor_critic_train policy dataset_next) w0 w ->
  pretrained (agent w) = true ->
  batch_size config * batch_length config / train_ratio config < 0 ->
  let r := (call obs done state true w).1 in
  let w' := (call obs done state true w).2 in
  (exists new,
      trace w' = trace w ++ new
      /\ filter (fun e => is_train_event e = true) new = [])
  /\ _dataset (agent w') = _dataset (agent w)
  /\ (is_ok r = true ->
      _update_count (agent w') = _update_count (agent w)
      /\ _step (agent w') = _step (agent w) + Z.of_nat (length done)).
Proof.
  intros Hstart Hcalls Hpre Hneg r w'. subst r w'.
  assert (Z.to_nat (num_steps (agent w)) = 0%nat) as Hzero.
  { destruct (calls_keep_settings _ _ Hcalls) as (_ & _ & Hn & _).
    destruct (startup_settings _ _ _ _ _ _ _ Hstart) as (_ & _ & _ & _ & Hn0 & _).
    unfold num_steps. rewrite Hpre. simpl. lia. }
  assert (exists new,
    trace (call obs done state true w).2 = trace w ++ new
    /\ filter (fun e => is_train_event e = true) new = []
    /\ _dataset (agent (call obs done state true w).2) = _dataset (agent w))
    as (new & Ht & Hf & Hd).
  { rewrite call_unfold.
    destruct (training_block_steps done w)
      as (k & new & Ht & Hc & Hle & _).
    rewrite Hzero in Hle. assert (k = 0%nat) as -> by lia.
    apply step_chain_0 in Hc as (Hnil & _ & Hds).
    destruct (block done w) as [[[]|e] w1]; simpl in *.
    - rewrite policy_block_spec; simpl.
      exists (new ++ [EvPolicy true (_step (agent w1) <? _expl_until (agent w1))]).
      rewrite Ht, <- app_assoc. split; [done|]. split; [|done].
      rewrite filter_app, Hnil. simpl.
      by rewrite (filter_train_event_nil [_]) by (by repeat constructor).
    - by exists new. }
  split; [by exists new|]. split; [done|].
  intros Hok.
  destruct (call obs done state true w) as [[out|e] w'] eqn:Hcall; [|done].
  simpl in *.
  destruct (call_counts _ _ _ _ _ _ _ Hcall) as (new' & Ht' & Hc & _).
  pose proof (call_steps _ _ _ _ _ _ _ Hcall) as [Hst _].
  split; [|done].
  rewrite Ht in Ht'. apply app_inv_head in Ht' as <-.
  rewrite Hc, <- n_updates_filter, Hf. unfold n_updates. simpl. lia.
Qed.

(** ** What one training step records *)

Lemma record_loop_emits (metrics : dict Q) (w : World) :
  (for_each metrics record_metric w).1 = Ok tt ->
  trace (for_each metrics record_metric w).2
  = trace w ++ map (fun kv => EvRecord kv.1 kv.2) metrics.
Proof.
  revert w. induction metrics as [|kv metrics IH]; intros w; simpl.
  - by rewrite app_nil_r.
  - unfold bind.
    assert ((record_metric kv w).1 = Ok tt ->
            trace (record_metric kv w).2 = trace w ++ [EvRecord kv.1 kv.2]) as Hk.
    { unfold record_metric, bind, get_agent; simpl.
      by destruct (dict_get kv.1 (_metrics (agent w))) as [[l|n]|]. }
    destruct (record_metric kv w) as [[[]|e] w1]; simpl in *; [|done].
    intros Hr. rewrite (IH w1 Hr), (Hk eq_refl), <- app_assoc. done.
Qed.

Lemma NoDup_keys_dict_update {V} (d e : dict V) :
  NoDup (keys d) -> NoDup (keys (dict_update d e)).
Proof.
  unfold dict_update. revert d. induction e as [|[k v] e IH]; intros d Hd; [done|].
  simpl. by apply IH, NoDup_keys_dict_set.
Qed.

(** [d.update(e)]: the entries of [e] win. *)
Lemma dict_get_update {V} (d e : dict V) (k : string) :
  NoDup (keys e) ->
  dict_get k (dict_update d e)
  = match dict_get k e with Some v => Some v | None => dict_get k d end.
Proof.
  unfold dict_update. revert d. induction e as [|[k' v'] e IH]; intros d Hnd; [done|].
  apply NoDup_cons in Hnd as [Hk' Hnd]. cbn [fst] in Hk'.
  cbn [fold_left dict_get fst snd]. rewrite (IH _ Hnd).
  destruct (String.eqb_spec k' k) as [->|Hne].
  - apply dict_get_None in Hk'. by rewrite Hk', dict_get_set_eq.
  - by rewrite dict_get_set_ne.
Qed.

(** X11: one training step records each metric name once.  When [_train]
    returns, what it has emitted is the world-model update, the actor-critic
    update and then one record per entry of the merged metrics dict, whose
    names are pairwise distinct; where the world model and the actor-critic
    report a metric of the same name, the value recorded is the
    actor-critic's. *)
Theorem train_records_merged_metrics (data : Batch) (w : World) :
  let wm := world_model_train (models (agent w)) data in
  let ac := actor_critic_train wm.1 wm.2.1 in
  let merged := dict_update (dict_update [] wm.2.2) ac.2 in
  let res := _train world_model_train actor_critic_train data w in
  res.1 = Ok tt ->
  trace res.2
  = trace w ++ [EvWorldTrain data wm.2.1; EvActorTrain wm.2.1]
    ++ map (fun kv => EvRecord kv.1 kv.2) merged
  /\ NoDup (keys merged)
  /\ (NoDup (keys wm.2.2) -> NoDup (keys ac.2) ->
      forall name,
        dict_get name merged
        = match dict_get name ac.2 with
          | Some v => Some v
          | None => dict_get name wm.2.2
          end).
Proof.
  intros wm ac merged res. subst res merged ac wm.
  unfold _train, call_world_model_train, call_actor_critic_train, bind,
    get_agent; simpl.
  destruct (world_model_train (models (agent w)) data) as [m1 [post mets]]; simpl.
  destruct (actor_critic_train m1 post) as [m2 mets']; simpl.
  match goal with |- context [for_each ?l record_metric ?x] =>
    pose proof (record_loop_emits l x) as He end.
  intros Hr. split; [|split].
  - rewrite (He Hr). simpl. by rewrite <- !app_assoc.
  - apply NoDup_keys_dict_update, NoDup_keys_dict_update. constructor.
  - intros Hwm Hac name. rewrite (dict_get_update _ _ _ Hac).
    destruct (dict_get name mets'); [done|]. rewrite (dict_get_update _ _ _ Hwm).
    by destruct (dict_get name mets).
Qed.

End AgentFacts.

(** ** The returns estimator *)

Section Returns.

Local Open Scope Q_scope.

Lemma lambda_return_length (lam : Q) (reward discount value : list Q) (H : nat) :
  length reward = H -> length discount = H -> length value = S H ->
  length (lambda_return lam reward discount value) = S H.
Proof.
  revert discount value H.
  induction reward as [|r reward IH]; intros [|d discount] [|v value] H;
    simpl; intros <- Hd Hv; try discriminate.
  - destruct value; [done | discriminate].
  - f_equal. apply IH; [done | by injection Hd | by injection Hv].
Qed.

Lemma lambda_return_step (lam : Q) (reward discount value : list Q) (H t : nat) :
  length reward = H -> length discount = H -> length value = S H ->
  (t < H)%nat ->
  nth t (lambda_return lam reward discount value) 0
  = nth t reward 0
    + nth t discount 0
      * ((1 - lam) * nth (S t) value 0
         + lam * nth (S t) (lambda_return lam reward discount value) 0).
Proof.
  revert discount value H t.
  induction reward as [|r reward IH]; intros [|d discount] [|v value] H t;
    simpl; intros <- Hd Hv Ht; try discriminate; try lia.
  destruct t as [|t].
  - destruct value as [|v1 value]; [discriminate|].
    by destruct (lambda_return lam reward discount (v1 :: value)).
  - apply (IH discount value (length reward) t);
      [done | by injection Hd | by injection Hv | lia].
Qed.

Lemma lambda_return_boundary (lam : Q) (reward discount value : list Q) (H : nat) :
  length reward = H -> length discount = H -> length value = S H ->
  nth H (lambda_return lam reward discount value) 0 = nth H value 0.
Proof.
  revert discount value H.
  induction reward as [|r reward IH]; intros [|d discount] [|v value] H;
    simpl; intros <- Hd Hv; try discriminate.
  - reflexivity.
  - apply IH; [done | by injection Hd | by injection Hv].
Qed.

(** C2, as the recursion has it: the estimator satisfies [target[t] =
    reward[t] + discount[t] * ((1-lambda)*value[t+1] + lambda*target[t+1])]
    for [t < H] and [target[H] = value[H]].  With all rewards zero and all
    discounts one, [target[H-1]] equals [value[H]] and, for [t < H-1],
    [target[t]] equals [(1-lambda)*value[t+1] + lambda*target[t+1]]; it
    equals [value[t+1]] for every [t < H] when [lambda] is zero. *)
Theorem lambda_return_recursion
    (lam : Q) (reward discount value : list Q) (H : nat) :
  length reward = H -> length discount = H -> length value = S H ->
  let target := lambda_return lam reward discount value in
  (forall t, (t < H)%nat ->
     nth t target 0
     = nth t reward 0
       + nth t discount 0 * ((1 - lam) * nth (S t) value 0 + lam * nth (S t) target 0))
  /\ nth H target 0 = nth H value 0
  /\ (Forall (Qeq 0) reward -> Forall (Qeq 1) discount ->
      (forall t, S t = H -> nth t target 0 == nth H value 0)
      /\ (forall t, (S t < H)%nat ->
            nth t target 0
            == (1 - lam) * nth (S t) value 0 + lam * nth (S t) target 0)
      /\ (lam == 0 -> forall t, (t < H)%nat -> nth t target 0 == nth (S t) value 0)).
Proof.
  intros Hr Hd Hv target.
  assert (forall t, (t < H)%nat ->
     nth t target 0
     = nth t reward 0
       + nth t discount 0 * ((1 - lam) * nth (S t) value 0 + lam * nth (S t) target 0))
    as Hstep by (intros t Ht; by apply (lambda_return_step lam _ _ _ H)).
  assert (nth H target 0 = nth H value 0) as Hlast
    by (by apply lambda_return_boundary).
  split; [done|]. split; [done|]. intros Hzero Hone.
  assert (forall t, (t < H)%nat ->
     nth t target 0 == (1 - lam) * nth (S t) value 0 + lam * nth (S t) target 0)
    as Hplain.
  { intros t Ht. rewrite (Hstep t Ht).
    assert (0 == nth t reward 0) as <-
      by (apply (proj1 (Forall_nth (Qeq 0) 0 reward) Hzero); lia).
    assert (1 == nth t discount 0) as <-
      by (apply (proj1 (Forall_nth (Qeq 1) 0 discount) Hone); lia).
    ring. }
  split; [|split].
  - intros t <-. rewrite (Hplain t) by lia. rewrite Hlast. ring.
  - intros t Ht. apply Hplain. lia.
  - intros Hlam t Ht. rewrite (Hplain t Ht), Hlam. ring.
Qed.

End Returns.

(** ** The moving percentiles *)

Section RewardEMAFacts.

Local Open Scope Q_scope.

Variable percentile : Q -> list Q -> Q.

(** C4: one update gives [ema_vals[i] = decay*ema_vals[i] +
    (1-decay)*percentile_i(targets)]; with [decay = 1] the estimates are
    unchanged, with [decay = 0] they are the two percentiles of the targets;
    the scale is [max(1, p95 - p5)] and the offset [p5] of the estimates
    (of the targets' percentiles themselves when [decay = 0]), and the scale
    is at least one. *)
Theorem reward_ema_update (decay : Q) (targets : list Q) (ema_vals : Q * Q) :
  let p5 := percentile (5 # 100) targets in
  let p95 := percentile (95 # 100) targets in
  let offset := (reward_ema percentile decay targets ema_vals).1.1 in
  let scale := (reward_ema percentile decay targets ema_vals).1.2 in
  let ema' := (reward_ema percentile decay targets ema_vals).2 in
  (ema'.1 == decay * ema_vals.1 + (1 - decay) * p5
   /\ ema'.2 == decay * ema_vals.2 + (1 - decay) * p95)
  /\ (decay == 1 -> ema'.1 == ema_vals.1 /\ ema'.2 == ema_vals.2)
  /\ (decay == 0 ->
      ema'.1 == p5 /\ ema'.2 == p95
      /\ scale == Qmax 1 (p95 - p5) /\ offset == p5)
  /\ scale == Qmax 1 (ema'.2 - ema'.1)
  /\ offset == ema'.1
  /\ 1 <= scale.
Proof.
  intros p5 p95 offset scale ema'. subst offset scale ema'. simpl.
  fold p5 p95.
  split; [by split|]. split; [|split; [|split; [done|split; [done|]]]].
  - intros ->. split; ring.
  - intros Hd.
    assert (decay * ema_vals.1 + (1 - decay) * p5 == p5) as H5
      by (rewrite Hd; ring).
    assert (decay * ema_vals.2 + (1 - decay) * p95 == p95) as H95
      by (rewrite Hd; ring).
    split; [done|]. split; [done|]. split; [|done].
    apply Q.max_compat; [done|]. by rewrite H5, H95.
  - apply Q.le_max_l.
Qed.

End RewardEMAFacts.

(** ** Examples on the small instance *)

(** C1 on the default sizes: 16 * 64 // 512 = 2 train steps. *)
Lemma init_raises_iff_zero_train_steps_witness :
  exists a,
    __init__ Demo.models_new tt tt Demo.cfg 0 0%nat = Ok a
    /\ _num_train_steps a = 2 /\ 0 < _num_train_steps a.
Proof.
  eexists. split; [reflexivity|].
  pose proof (init_raises_iff_zero_train_steps Demo.models_new tt tt Demo.cfg 0 0%nat)
    as (_ & _ & H).
  destruct (H _ eq_refl) as (Hn & _ & Hpos).
  split; [exact Hn | apply Hpos; vm_compute; congruence].
Defined.

(** C1 as stated fails: with a negative train ratio the derived count is
    negative, the constructor returns an agent all the same, and the stored
    [_num_train_steps] is not positive. *)
Lemma init_accepts_negative_train_steps :
  batch_size Demo.cfg_neg * batch_length Demo.cfg_neg / train_ratio Demo.cfg_neg <= 0
  /\ exists a,
      __init__ Demo.models_new tt tt Demo.cfg_neg 0 0%nat = Ok a
      /\ _num_train_steps a = -2
      /\ ~ 0 < _num_train_steps a.
Proof.
  split; [vm_compute; congruence|].
  eexists. split; [reflexivity|]. split; [reflexivity|]. vm_compute. congruence.
Qed.

(** C2 as stated fails: with zero rewards, unit discounts, [lambda = 1/2],
    [H = 2] and values 0, 1, 3 the target at [t = 0 < H-1] is 2, not
    [value[1] = 1]. *)
Lemma lambda_return_not_next_value :
  Forall (Qeq 0) [0%Q; 0%Q] /\ Forall (Qeq 1) [1%Q; 1%Q]
  /\ ~ (nth 0 (lambda_return (1 # 2) [0; 0] [1; 1] [0; 1; 3]) 0
        == nth 1 [0; 1; 3] 0)%Q.
Proof.
  split; [by repeat constructor|]. split; [by repeat constructor|].
  intros H. vm_compute in H. discriminate H.
Qed.

Lemma lambda_return_recursion_witness :
  (nth 1 (lambda_return (1 # 2) [0; 0] [1; 1] [0; 1; 3]) 0 == 3)%Q
  /\ (nth 0 (lambda_return 0 [0; 0] [1; 1] [0; 1; 3]) 0 == 1)%Q.
Proof.
  split.
  - pose proof (lambda_return_recursion (1 # 2) [0; 0]%Q [1; 1]%Q [0; 1; 3]%Q 2
                  eq_refl eq_refl eq_refl) as (_ & _ & H).
    destruct H as (Hlast & _ & _); [by repeat constructor | by repeat constructor|].
    exact (Hlast 1%nat eq_refl).
  - pose proof (lambda_return_recursion 0 [0; 0]%Q [1; 1]%Q [0; 1; 3]%Q 2
                  eq_refl eq_refl eq_refl) as (_ & _ & H).
    destruct H as (_ & _ & Hzero); [by repeat constructor | by repeat constructor|].
    apply (Hzero (Qeq_refl 0) 0%nat). lia.
Defined.

(** C4 on the test's input, with the median standing in for both
    percentiles: the estimates (0, 1) stay (0, 1) under [decay = 1]. *)
Lemma reward_ema_update_witness :
  let ema' := (reward_ema (fun _ _ => 2%Q) 1 [1; 2; 3]%Q (0, 1)%Q).2 in
  (ema'.1 == 0)%Q /\ (ema'.2 == 1)%Q.
Proof.
  pose proof (reward_ema_update (fun _ _ => 2%Q) 1 [1; 2; 3]%Q (0, 1)%Q)
    as (_ & H & _).
  exact (H (Qeq_refl 1)).
Defined.

(** C7 on the small instance: started from a checkpoint, the agent holds the
    checkpoint's tensor, is pretrained, and its first training call runs
    [_num_train_steps = 2] updates and returns. *)
Lemma checkpoint_skips_pretraining_witness :
  exists w0,
    Demo.startup Demo.cfg (Some Demo.latest) = Ok w0
    /\ pretrained (agent w0) = true
    /\ get_state_dict (agent w0) !! "actor.weight"%string
       = Some [Byte.x02; Byte.x03]
    /\ is_ok (Demo.call tt [false] None true w0).1 = true
    /\ exists new,
        trace (Demo.call tt [false] None true w0).2 = trace w0 ++ new
        /\ n_updates new = 2%nat.
Proof.
  eexists. split; [vm_compute; reflexivity|].
  lazymatch goal with
  | |- pretrained (agent ?W0) = true /\ _ =>
      assert (main_startup Demo.models_new tt tt Demo.cfg 0 0%nat (Some Demo.latest)
              = Ok W0) as Hs by (vm_compute; reflexivity);
      assert (no_update_count_metric Demo.world_model_train Demo.actor_critic_train)
        as Hclean;
      [ split; intros m x Hin; vm_compute in Hin;
        repeat (apply elem_of_cons in Hin as [Hin|Hin]; [discriminate Hin|]);
        by apply elem_of_nil in Hin
      | destruct (checkpoint_skips_pretraining
                    Demo.models_new Demo.world_model_train Demo.actor_critic_train
                    Demo.policy Demo.dataset_next tt tt Demo.cfg 0 0%nat
                    (Some Demo.latest) W0 W0 tt [false] None
                    Hclean Hs (rtc_refl _ _))
          as [(new & Ht & Hp & Hload & Hn & Hret) _] ]
  end.
  split; [exact Hp|]. split.
  - apply Hload; [vm_compute; reflexivity|].
    apply elem_of_dom. eexists. vm_compute. reflexivity.
  - split; [apply Hret; vm_compute; congruence|].
    exists new. split; [exact Ht | exact Hn].
Defined.



(** C9 on the small instance. *)
Lemma scalars_are_means_since_last_write_witness :
  exists w0,
    Demo.startup Demo.cfg None = Ok w0
    /\ forall pre name v post,
        trace (Demo.call tt [false] None true w0).2 = pre ++ EvScalar name v :: post ->
        name <> "update_count"%string ->
        v = np_mean (AccList (pending name pre)).
Proof.
  eexists. split; [vm_compute; reflexivity|].
  lazymatch goal with
  | |- forall pre name v post, trace (Demo.call _ _ _ _ ?W0).2 = _ -> _ =>
      assert (main_startup Demo.models_new tt tt Demo.cfg 0 0%nat None = Ok W0) as Hs
        by (vm_compute; reflexivity);
      exact (proj1 (scalars_are_means_since_last_write
                  Demo.models_new Demo.world_model_train Demo.actor_critic_train
                  Demo.policy Demo.dataset_next tt tt Demo.cfg 0 0%nat None
                  W0 W0 tt [false] None true Hs (rtc_refl _ _)))
  end.
Defined.

(** C9 as stated fails for the update count: the first call runs two
    updates and records the counts 1 and 2 under ["update_count"], whose
    mean is 3/2; the scalar reported is 2. *)
Lemma update_count_is_not_a_mean :
  exists r w pre post,
    Demo.first_call = Some (r, w)
    /\ trace w = pre ++ EvScalar "update_count" (Fl 2) :: post
    /\ pending "update_count" pre = [1%Q; 2%Q]
    /\ np_mean (AccList (pending "update_count" pre)) = Fl (3 # 2)
    /\ Fl 2 <> Fl (3 # 2).
Proof.
  eexists _, _,
    [EvNext 0%nat; EvWorldTrain 0%nat 0%nat; EvActorTrain 0%nat;
     EvRecord "kl" 0; EvRecord "actor_loss" (1 # 2); EvRecord "update_count" 1;
     EvNext 1%nat; EvWorldTrain 1%nat 1%nat; EvActorTrain 1%nat;
     EvRecord "kl" 1; EvRecord "actor_loss" (1 # 2); EvRecord "update_count" 2;
     EvScalar "kl" (Fl (1 # 2)); EvScalar "actor_loss" (Fl (4 # 8))],
    [EvWrite; EvPolicy true true].
  split; [vm_compute; reflexivity|]. split; [vm_compute; reflexivity|].
  split; [vm_compute; reflexivity|]. split; [vm_compute; reflexivity | discriminate].
Qed.

(** The first call trains twice, the world model before the actor-critic
    each time. *)
Example first_call_trace :
  exists r w,
    Demo.first_call = Some (r, w)
    /\ filter (fun e => is_train_event e = true) (trace w)
       = [EvNext 0%nat; EvWorldTrain 0%nat 0%nat; EvActorTrain 0%nat;
          EvNext 1%nat; EvWorldTrain 1%nat 1%nat; EvActorTrain 1%nat].
Proof. eexists _, _. split; [vm_compute; reflexivity|]. vm_compute; reflexivity. Qed.

(** ** Examples of the further properties *)

Lemma run_w0 : Demo.startup Demo.cfg None = Ok Run.w0.
Proof. vm_compute. reflexivity. Defined.

Lemma run_w1 :
  rtc (call_step Demo.world_model_train Demo.actor_critic_train Demo.policy
         Demo.dataset_next) Run.w0 Run.w1.
Proof.
  apply rtc_once. exists tt, Run.done5, None, true, (tt, tt).
  vm_compute. reflexivity.
Defined.

(** X1 after the first call: two updates, two batches. *)
Lemma update_count_counts_updates_witness :
  _update_count (agent Run.w1) = Z.of_nat (n_updates (trace Run.w1))
  /\ _dataset (agent Run.w1)
     = pulled Demo.dataset_next (n_updates (trace Run.w1)) 0%nat.
Proof.
  exact (update_count_counts_updates Demo.models_new Demo.world_model_train
           Demo.actor_critic_train Demo.policy Demo.dataset_next
           tt tt Demo.cfg 0 0%nat None Run.w0 Run.w1 run_w0 run_w1).
Defined.

(** X2 after the first call: [_step = 5], the logger's step is 10. *)
Lemma step_is_logger_step_over_action_repeat_witness :
  action_repeat Demo.cfg <> 0
  /\ _step (agent Run.w1) = logger_step Run.w1 / action_repeat Demo.cfg
  /\ _step (agent Run.w0) <= _step (agent Run.w1).
Proof.
  exact (step_is_logger_step_over_action_repeat Demo.models_new
           Demo.world_model_train Demo.actor_critic_train Demo.policy
           Demo.dataset_next tt tt Demo.cfg 0 0%nat None Run.w0 Run.w1
           run_w0 run_w1).
Defined.

(** X3 after the first call. *)
Lemma settings_are_fixed_at_construction_witness :
  _config (agent Run.w1) = Demo.cfg
  /\ _log_every (agent Run.w1) = log_every Demo.cfg
  /\ _expl_until (agent Run.w1) = expl_until Demo.cfg
  /\ _num_train_steps (agent Run.w1)
     = batch_size Demo.cfg * batch_length Demo.cfg / train_ratio Demo.cfg
  /\ _num_train_steps (agent Run.w1) <> 0.
Proof.
  exact (settings_are_fixed_at_construction Demo.models_new
           Demo.world_model_train Demo.actor_critic_train Demo.policy
           Demo.dataset_next tt tt Demo.cfg 0 0%nat None Run.w0 Run.w1
           run_w0 run_w1).
Defined.

(** X5 on the second call. *)
Lemma each_metric_reported_once_per_call_witness :
  exists new,
    trace (Demo.call tt Run.done5 None true Run.w1).2 = trace Run.w1 ++ new
    /\ NoDup (scalar_names new).
Proof.
  exact (each_metric_reported_once_per_call Demo.models_new
           Demo.world_model_train Demo.actor_critic_train Demo.policy
           Demo.dataset_next tt tt Demo.cfg 0 0%nat None Run.w0 Run.w1
           tt Run.done5 None true run_w0 run_w1).
Defined.

(** X6 after the first call, for the metric ["kl"]. *)
Lemma accumulators_hold_pending_values_witness :
  match dict_get "kl" (_metrics (agent Run.w1)) with
  | Some (AccList l) => l = pending "kl" (trace Run.w1)
  | Some (AccInt _) => False
  | None => pending "kl" (trace Run.w1) = []
  end.
Proof.
  apply (accumulators_hold_pending_values Demo.models_new
           Demo.world_model_train Demo.actor_critic_train Demo.policy
           Demo.dataset_next tt tt Demo.cfg 0 0%nat None Run.w0 Run.w1
           "kl" run_w0 run_w1).
  discriminate.
Defined.

(** X7: the first call ends with [_step = 5 = _expl_until] and does not
    explore; neither does the second. *)
Lemma exploration_never_resumes_witness :
  exists body,
    Forall (fun e => is_policy e = false) body
    /\ trace (Demo.call tt Run.done5 None true Run.w1).2
       = trace Run.w1 ++ body ++ [EvPolicy true false].
Proof.
  refine (exploration_never_resumes Demo.models_new
            Demo.world_model_train Demo.actor_critic_train Demo.policy
            Demo.dataset_next tt tt Demo.cfg 0 0%nat None Run.w0 Run.w1
            (Demo.call tt Run.done5 None true Run.w1).2
            true tt Run.done5 None true (tt, tt) run_w0 run_w1 _ _).
  - apply list_elem_of_In. vm_compute.
    repeat (first [left; reflexivity | right]).
  - vm_compute. reflexivity.
Defined.

Lemma demo_clean_names :
  no_update_count_metric Demo.world_model_train Demo.actor_critic_train.
Proof.
  split; intros m x Hin; vm_compute in Hin;
    repeat (apply elem_of_cons in Hin as [Hin|Hin]; [discriminate Hin|]);
    by apply elem_of_nil in Hin.
Defined.

Lemma run_z0 : Demo.startup Run.cfg_scaled None = Ok Run.z0.
Proof. vm_compute. reflexivity. Defined.

Lemma run_z1 :
  rtc (call_step Demo.world_model_train Demo.actor_critic_train Demo.policy
         Demo.dataset_next) Run.z0 Run.z1.
Proof.
  apply rtc_once. exists tt, Run.done5, None, true, (tt, tt).
  vm_compute. reflexivity.
Defined.

(** X8: with [log_every = 1] and [action_repeat = 2] the pretraining call
    returns and the next training call raises. *)
Lemma zero_log_cadence_raises_witness :
  (Demo.call tt Run.done5 None true Run.z1).1 = Raise ZeroDivisionError
  /\ _step (agent (Demo.call tt Run.done5 None true Run.z1).2) = _step (agent Run.z1).
Proof.
  destruct (zero_log_cadence_raises Demo.models_new
              Demo.world_model_train Demo.actor_critic_train Demo.policy
              Demo.dataset_next tt tt Edge.cfg_log1 Run.cfg_scaled 0 0%nat None
              Run.z0 Run.z1 tt Run.done5 None demo_clean_names)
    as (Hr & Hs & _).
  - vm_compute. reflexivity.
  - vm_compute. split; congruence.
  - exact run_z0.
  - exact run_z1.
  - vm_compute. reflexivity.
  - split; [exact Hr | exact Hs].
Defined.

(** X9: the first call of an agent whose world model reports
    ["update_count"] is to run two pretraining updates, and raises. *)
Lemma metric_named_update_count_raises_witness :
  (Edge.call tt Run.done5 None true Run.w0).1 = Raise AttributeError.
Proof.
  refine (proj1 (metric_named_update_count_raises Demo.models_new
                   Edge.world_model_train Demo.actor_critic_train Demo.policy
                   Demo.dataset_next tt tt Demo.cfg 0 0%nat None Run.w0 Run.w0
                   tt Run.done5 None _ run_w0 (rtc_refl _ _) _)).
  - intros m data. simpl. by left.
  - vm_compute. congruence.
Defined.

Lemma run_n0 : Demo.startup Demo.cfg_neg None = Ok Run.n0.
Proof. vm_compute. reflexivity. Defined.

Lemma run_n1 :
  rtc (call_step Demo.world_model_train Demo.actor_critic_train Demo.policy
         Demo.dataset_next) Run.n0 Run.n1.
Proof.
  apply rtc_once. exists tt, Run.done5, None, true, (tt, tt).
  vm_compute. reflexivity.
Defined.

(** X10: with the train ratio -512 the count is -2; after the two
    pretraining updates the next training call pulls nothing. *)
Lemma negative_train_steps_never_update_witness :
  _dataset (agent (Demo.call tt Run.done5 None true Run.n1).2)
  = _dataset (agent Run.n1).
Proof.
  refine (proj1 (proj2 (negative_train_steps_never_update Demo.models_new
                   Demo.world_model_train Demo.actor_critic_train Demo.policy
                   Demo.dataset_next tt tt Demo.cfg_neg 0 0%nat None Run.n0 Run.n1
                   tt Run.done5 None run_n0 run_n1 _ _))).
  - vm_compute. reflexivity.
  - vm_compute. reflexivity.
Defined.

(** X11 on the first batch. *)
Lemma train_records_merged_metrics_witness :
  trace (_train Demo.world_model_train Demo.actor_critic_train 0%nat Run.w0).2
  = [EvWorldTrain 0%nat 0%nat; EvActorTrain 0%nat;
     EvRecord "kl" 0; EvRecord "actor_loss" (1 # 2)].
Proof.
  refine (proj1 (train_records_merged_metrics Demo.world_model_train
                   Demo.actor_critic_train 0%nat Run.w0 _)).
  vm_compute. reflexivity.
Defined.

(** X4 on the second call. *)
Lemma policy_is_called_once_and_last_witness :
  exists body,
    Forall (fun e => is_policy e = false) body
    /\ trace (Demo.call tt Run.done5 None true Run.w1).2
       = trace Run.w1 ++ body
         ++ [EvPolicy true
               (_step (agent (Demo.call tt Run.done5 None true Run.w1).2)
                <? _expl_until (agent (Demo.call tt Run.done5 None true Run.w1).2))].
Proof.
  refine (policy_is_called_once_and_last Demo.world_model_train
            Demo.actor_critic_train Demo.policy Demo.dataset_next
            tt Run.done5 None true Run.w1
            (Demo.call tt Run.done5 None true Run.w1).2 (tt, tt) _).
  vm_compute. reflexivity.
Defined.
